(** * Telemetry pattern analyzer (analyze-otel-patterns.py)

    A shallow embedding of [TelemetryAnalyzer]: the loader
    [load_recent_telemetry], the detector [detect_patterns], the coach
    [generate_coaching] and the writer [update_statusline], together with
    the fragment of Python they rely on (JSON values as [json.loads]
    returns them, [dict.get], subscripting, iteration, [str.lower],
    [in] on strings, [==] against an integer, true division of integers
    into binary64 floats, exceptions). *)

From Stdlib Require Import ZArith Lia List Bool String Ascii.
From Stdlib Require Import SpecFloat.
From stdpp Require Import base decidable gmap strings pretty.
Import ListNotations.

Set Warnings "-register-all".

Local Open Scope string_scope.
Local Open Scope Z_scope.

(** ** Python values and exceptions *)

Module Py.

(** The exceptions the analyzer can meet. *)
Inductive exn :=
| KeyError
| TypeError
| AttributeError
| ValueError
| ZeroDivisionError
| OverflowError.

(** Outcome of evaluating a Python expression or statement. *)
Inductive result (A : Type) :=
| Ok (a : A)
| Raise (e : exn).

Arguments Ok {A} a.
Arguments Raise {A} e.

Definition bind {A B} (c : result A) (k : A -> result B) : result B :=
  match c with
  | Ok a => k a
  | Raise e => Raise e
  end.

Definition is_ok {A} (c : result A) : bool :=
  match c with Ok _ => true | Raise _ => false end.

(** What [json.loads] produces: [None], [bool], [int], [float], [str],
    [list] and [dict] (string keys only).  A dict is kept as its list of
    items in insertion order; keys are meant to be distinct, and lookup
    takes the first binding. *)
Inductive json :=
| JNull
| JBool (b : bool)
| JInt (n : Z)
| JFloat (f : spec_float)
| JStr (s : string)
| JList (l : list json)
| JDict (kv : list (string * json)).

Fixpoint lookup_key (k : string) (kv : list (string * json)) : option json :=
  match kv with
  | [] => None
  | (k', v) :: rest => if String.eqb k k' then Some v else lookup_key k rest
  end.

(** [v[k]] with a string key. *)
Definition getitem (v : json) (k : string) : result json :=
  match v with
  | JDict kv =>
      match lookup_key k kv with
      | Some x => Ok x
      | None => Raise KeyError
      end
  | _ => Raise TypeError
  end.

(** [v.get(k, default)]: only dicts have the method. *)
Definition get (v : json) (k : string) (default : json) : result json :=
  match v with
  | JDict kv =>
      match lookup_key k kv with
      | Some x => Ok x
      | None => Ok default
      end
  | _ => Raise AttributeError
  end.

(** The items a [for] loop over [v] visits: the elements of a list, the
    keys of a dict, the characters of a string; other values are not
    iterable. *)
Definition iter (v : json) : result (list json) :=
  match v with
  | JList l => Ok l
  | JDict kv => Ok (map (fun p => JStr (fst p)) kv)
  | JStr s => Ok (map (fun c => JStr (String c EmptyString)) (list_ascii_of_string s))
  | _ => Raise TypeError
  end.

(** [for x in l: body], threading the loop state; an exception leaves
    the loop at once. *)
Fixpoint for_each {A S : Type} (body : A -> S -> result S) (l : list A) (s : S)
  : result S :=
  match l with
  | [] => Ok s
  | x :: rest =>
      match body x s with
      | Ok s' => for_each body rest s'
      | Raise e => Raise e
      end
  end.

(** [str.lower] on the letters A-Z.  Strings are kept as UTF-8 bytes; no
    character outside ASCII lowers to one of the letters searched for
    below, and bytes above 127 are left alone. *)
Definition lower_ascii (c : ascii) : ascii :=
  let n := nat_of_ascii c in
  if (Nat.leb 65 n && Nat.leb n 90)%bool then ascii_of_nat (n + 32) else c.

Fixpoint lower (s : string) : string :=
  match s with
  | EmptyString => EmptyString
  | String c rest => String (lower_ascii c) (lower rest)
  end.

(** [needle in hay] on strings. *)
Fixpoint contains (needle hay : string) : bool :=
  if String.prefix needle hay then true
  else match hay with
       | EmptyString => false
       | String _ rest => contains needle rest
       end.

(** Exact value test of a float against an integer, as Python compares
    them: [m * 2^e = n]. *)
Definition float_eq_Z (f : spec_float) (n : Z) : bool :=
  match f with
  | S754_zero _ => n =? 0
  | S754_finite s m e =>
      if 0 <=? e then cond_Zopp s (Z.pos m * 2 ^ e) =? n
      else cond_Zopp s (Z.pos m) =? n * 2 ^ (- e)
  | _ => false
  end.

(** [v == n] for an integer literal [n]. *)
Definition eq_int (v : json) (n : Z) : bool :=
  match v with
  | JInt k => k =? n
  | JBool b => (if b then 1 else 0) =? n
  | JFloat f => float_eq_Z f n
  | _ => false
  end.

(** [v == s] for a string literal [s]. *)
Definition eq_str (v : json) (s : string) : bool :=
  match v with
  | JStr t => String.eqb t s
  | _ => false
  end.

End Py.

Export Py.

(** Sequencing of statements that may raise, in stdpp's monad notation. *)
#[global] Instance result_bind : MBind result := fun A B k c => Py.bind c k.
#[global] Instance result_ret : MRet result := fun A a => Ok a.

(** ** binary64 arithmetic *)

Module Float64.

Definition prec : Z := 53.
Definition emax : Z := 1024.

(** An integer as an exact (unrounded) mantissa with exponent 0. *)
Definition of_int (n : Z) : spec_float :=
  match n with
  | Z0 => S754_zero false
  | Zpos p => S754_finite false p 0
  | Zneg p => S754_finite true p 0
  end.

(** [a / b] on Python integers: the quotient rounded once to the nearest
    binary64 (ties to even); division by zero and a quotient too large
    for a float raise. *)
Definition truediv (a b : Z) : result spec_float :=
  if b =? 0 then Raise ZeroDivisionError
  else match SFdiv prec emax (of_int a) (of_int b) with
       | S754_infinity _ => Raise OverflowError
       | q => Ok q
       end.

(** A decimal literal [n/d] denotes the binary64 nearest to it. *)
Definition literal (n d : Z) : spec_float :=
  SFdiv prec emax (of_int n) (of_int d).

Definition lit_0_4 : spec_float := Eval vm_compute in literal 4 10.
Definition lit_0_1 : spec_float := Eval vm_compute in literal 1 10.

Definition gt (x y : spec_float) : bool := SFltb y x.
Definition lt (x y : spec_float) : bool := SFltb x y.

End Float64.

Export Float64.

(** ** Dates and times *)

Module Datetime.

(** A [datetime]: the wall-clock reading in microseconds since
    0001-01-01T00:00:00 (the least datetime), and the UTC offset in
    microseconds when the value is offset-aware ([None] for a naive
    value such as [datetime.now()] returns). *)
Record datetime := {
  wall : Z;
  utcoffset : option Z
}.

(** [x > y]: two naive values compare by their readings, two aware
    values by their instants, and a naive value cannot be ordered
    against an aware one. *)
Definition dt_gt (x y : datetime) : result bool :=
  match utcoffset x, utcoffset y with
  | None, None => Ok (wall y <? wall x)
  | Some ox, Some oy => Ok (wall y - oy <? wall x - ox)
  | _, _ => Raise TypeError
  end.

(** The readings a datetime can hold: the years 1 to 9999, that is
    3652059 days of 86400 seconds. *)
Definition max_wall : Z := 315537897600000000.

Definition representable (reading : Z) : bool :=
  (0 <=? reading) && (reading <? max_wall).

(** [x - timedelta(minutes=n)]: the reading moves back by [n] minutes;
    [OverflowError] when the timedelta or the result is out of range
    (a timedelta too large for its own range takes the result out of the
    datetime range as well). *)
Definition sub_minutes (x : datetime) (n : Z) : result datetime :=
  let reading := wall x - n * 60000000 in
  if representable reading
  then Ok {| wall := reading; utcoffset := utcoffset x |}
  else Raise OverflowError.

End Datetime.

Export Datetime.

(** ** The analyzer *)

Module TelemetryAnalyzer.

(** The [patterns] dict of [detect_patterns]: six fixed keys. *)
Record PatternFlags := {
  error_thrashing : bool;
  flow_state : bool;
  stuck : bool;
  context_pressure : bool;
  exploring : bool;
  debugging : bool
}.

(** The local variables the telemetry loop updates. *)
Record Counters := {
  tool_errors : Z;
  tool_successes : Z;
  unique_tools : gset string
}.

Definition counters0 : Counters :=
  {| tool_errors := 0; tool_successes := 0; unique_tools := ∅ |}.

(** Body of [for span in ss.get('spans', [])]. *)
Definition scan_span (span : json) (c : Counters) : result Counters :=
  name ← get span "name" (JStr "");
  status ← get span "status" (JDict []);
  match name with
  | JStr n =>
      if contains "tool" (lower n) then
        let tools := {[ n ]} ∪ unique_tools c in
        code ← get status "code" JNull;
        if eq_int code 2 then
          Ok {| tool_errors := tool_errors c + 1;
                tool_successes := tool_successes c;
                unique_tools := tools |}
        else
          Ok {| tool_errors := tool_errors c;
                tool_successes := tool_successes c + 1;
                unique_tools := tools |}
      else Ok c
  | _ => Raise AttributeError
  end.

(** Body of [for ss in rs.get('scopeSpans', [])]. *)
Definition scan_scope_spans (ss : json) (c : Counters) : result Counters :=
  spans ← get ss "spans" (JList []);
  items ← iter spans;
  for_each scan_span items c.

(** Body of [for rs in data.get('resourceSpans', [])]. *)
Definition scan_resource_spans (rs : json) (c : Counters) : result Counters :=
  sss ← get rs "scopeSpans" (JList []);
  items ← iter sss;
  for_each scan_scope_spans items c.

(** Body of [for metric in sm.get('metrics', [])]: the name is lowered
    and searched for "token", and nothing is recorded. *)
Definition scan_metric (metric : json) (c : Counters) : result Counters :=
  name ← get metric "name" (JStr "");
  match name with
  | JStr n => if contains "token" (lower n) then Ok c else Ok c
  | _ => Raise AttributeError
  end.

Definition scan_scope_metrics (sm : json) (c : Counters) : result Counters :=
  ms ← get sm "metrics" (JList []);
  items ← iter ms;
  for_each scan_metric items c.

Definition scan_resource_metrics (rm : json) (c : Counters) : result Counters :=
  sms ← get rm "scopeMetrics" (JList []);
  items ← iter sms;
  for_each scan_scope_metrics items c.

(** Body of [for entry in telemetry]. *)
Definition scan_entry (entry : json) (c : Counters) : result Counters :=
  ty ← getitem entry "type";
  if eq_str ty "traces" then
    data ← get entry "data" (JDict []);
    rss ← get data "resourceSpans" (JList []);
    items ← iter rss;
    for_each scan_resource_spans items c
  else
    ty' ← getitem entry "type";
    if eq_str ty' "metrics" then
      data ← get entry "data" (JDict []);
      rms ← get data "resourceMetrics" (JList []);
      items ← iter rms;
      for_each scan_resource_metrics items c
    else Ok c.

(** The telemetry loop of [detect_patterns] (lines 55-85). *)
Definition scan_telemetry (telemetry : list json) : result Counters :=
  for_each scan_entry telemetry counters0.

(** [len(unique_tools)]. *)
Definition distinct_tools (c : Counters) : Z := Z.of_nat (size (unique_tools c)).

(** [tool_errors / max(tool_errors + tool_successes, 1)]. *)
Definition error_rate_of (errors successes : Z) : result spec_float :=
  truediv errors (Z.max (errors + successes) 1).

(** The threshold rules (lines 88-108) on the accumulated counts. *)
Definition flags_of (errors successes tools total_events : Z) (error_rate : spec_float)
  : PatternFlags :=
  {| error_thrashing := gt error_rate lit_0_4 && (3 <=? errors);
     flow_state := (5 <=? successes) && (3 <=? tools) && lt error_rate lit_0_1;
     stuck := (total_events <? 5) || ((tools =? 1) && (3 <? total_events));
     context_pressure := false;
     exploring := 5 <=? tools;
     debugging := (2 <=? errors) && (2 <=? successes) |}.

Definition detect_patterns (telemetry : list json) : result PatternFlags :=
  let total_events := Z.of_nat (length telemetry) in
  c ← scan_telemetry telemetry;
  error_rate ← error_rate_of (tool_errors c) (tool_successes c);
  Ok (flags_of (tool_errors c) (tool_successes c) (distinct_tools c)
               total_events error_rate).

(** The seven coaching messages. *)
Definition msg_error_thrashing : string := "💭 Multiple errors detected. Try: vibecheck?".
Definition msg_stuck : string := "🤔 Seems quiet. Need help exploring options?".
Definition msg_flow_state : string := "🚀 Great momentum! Keep going!".
Definition msg_debugging : string := "🔍 Debugging mode. Remember: test as you go".
Definition msg_exploring : string := "🗺️ Exploring well! Focus emerging?".
Definition msg_context_pressure : string := "📚 High token usage. Consider summarizing".
Definition msg_ready : string := "✨ Ready to assist".

Definition generate_coaching (patterns : PatternFlags) : string :=
  if error_thrashing patterns then msg_error_thrashing
  else if stuck patterns then msg_stuck
  else if flow_state patterns then msg_flow_state
  else if debugging patterns then msg_debugging
  else if exploring patterns then msg_exploring
  else if context_pressure patterns then msg_context_pressure
  else msg_ready.

(** The [patterns] dict as [json.dump] receives it. *)
Definition patterns_json (patterns : PatternFlags) : json :=
  JDict [("error_thrashing", JBool (error_thrashing patterns));
         ("flow_state", JBool (flow_state patterns));
         ("stuck", JBool (stuck patterns));
         ("context_pressure", JBool (context_pressure patterns));
         ("exploring", JBool (exploring patterns));
         ("debugging", JBool (debugging patterns))].

(** What a run can see and change: the clock ([clock k] is the
    wall-clock reading the [k]-th call of [datetime.now()] returns), the
    telemetry log ([None] when the file does not exist) and the text of
    the status file.  The log is the sequence of lines that iterating
    the open file yields, with [None] where the bytes of the file cannot
    be decoded as text. *)
Record World := {
  clock : nat -> Z;
  reads : nat;
  telemetry_log : option (list (option string));
  status_file : option string
}.

(** [datetime.now()]. *)
Definition now (w : World) : datetime * World :=
  ({| wall := clock w (reads w); utcoffset := None |},
   {| clock := clock w; reads := S (reads w);
      telemetry_log := telemetry_log w; status_file := status_file w |}).

(** [open(self.status_file, 'w')] followed by the dump: the old text is
    dropped. *)
Definition write_status (text : string) (w : World) : World :=
  {| clock := clock w; reads := reads w;
     telemetry_log := telemetry_log w; status_file := Some text |}.

Section Runtime.

(** The library functions the analyzer calls: [json.loads],
    [datetime.fromisoformat], [datetime.isoformat] and the text
    [json.dump(_, _, indent=2)] writes. *)
Variable json_loads : string -> result json.
Variable fromisoformat : string -> result datetime.
Variable isoformat : datetime -> string.
Variable json_dump : json -> string.

(** [datetime.fromisoformat(entry['timestamp'])]. *)
Definition entry_timestamp (entry : json) : result datetime :=
  v ← getitem entry "timestamp";
  match v with
  | JStr s => fromisoformat s
  | _ => Raise TypeError
  end.

(** The statements under [try] (lines 34-37): the entry to append, if any. *)
Definition try_line (cutoff : datetime) (line : string) : result (option json) :=
  entry ← json_loads line;
  timestamp ← entry_timestamp entry;
  after ← dt_gt timestamp cutoff;
  Ok (if (after : bool) then Some entry else None).

(** One turn of [for line in f], with [except: continue]. *)
Definition scan_line (cutoff : datetime) (recent : list json) (line : string)
  : list json :=
  match try_line cutoff line with
  | Ok (Some entry) => recent ++ [entry]
  | Ok None => recent
  | Raise _ => recent
  end.

(** [for line in f: ...] (lines 32-39): reading the next line is outside
    the [try], so bytes that cannot be decoded end the loop with a
    [UnicodeDecodeError], which is a [ValueError]. *)
Fixpoint read_lines (cutoff : datetime) (lines : list (option string))
    (recent : list json) : result (list json) :=
  match lines with
  | [] => Ok recent
  | None :: _ => Raise ValueError
  | Some line :: rest => read_lines cutoff rest (scan_line cutoff recent line)
  end.

Definition load_recent_telemetry (minutes : Z) (w : World)
  : result (list json) * World :=
  match telemetry_log w with
  | None => (Ok [], w)
  | Some lines =>
      let '(t, w1) := now w in
      match sub_minutes t minutes with
      | Raise e => (Raise e, w1)
      | Ok cutoff => (read_lines cutoff lines [], w1)
      end
  end.

(** The [status] dict of [update_statusline]. *)
Definition status_of (t : datetime) (message : string) (patterns : PatternFlags)
    (telemetry : list json) : json :=
  JDict [("timestamp", JStr (isoformat t));
         ("message", JStr message);
         ("patterns", patterns_json patterns);
         ("telemetry_count", JInt (Z.of_nat (length telemetry)))].

Definition update_statusline (w : World) : result json * World :=
  let '(loaded, w1) := load_recent_telemetry 5 w in
  match loaded with
  | Raise e => (Raise e, w1)
  | Ok telemetry =>
      match detect_patterns telemetry with
      | Raise e => (Raise e, w1)
      | Ok patterns =>
          let message := generate_coaching patterns in
          let '(t, w2) := now w1 in
          let status := status_of t message patterns telemetry in
          (Ok status, write_status (json_dump status) w2)
      end
  end.

End Runtime.

End TelemetryAnalyzer.

Export TelemetryAnalyzer.

(** ** What the specification says, in its own words *)

Module Spec.

(** The coach's priority order: each flag with its message. *)
Definition priority : list ((PatternFlags -> bool) * string) :=
  [(error_thrashing, msg_error_thrashing);
   (stuck, msg_stuck);
   (flow_state, msg_flow_state);
   (debugging, msg_debugging);
   (exploring, msg_exploring);
   (context_pressure, msg_context_pressure)].

(** The message of the first flag that is set, or the "ready" message. *)
Definition first_match (patterns : PatternFlags) : string :=
  match find (fun rule => fst rule patterns) priority with
  | Some rule => snd rule
  | None => msg_ready
  end.

Definition all_messages : list string :=
  [msg_error_thrashing; msg_stuck; msg_flow_state; msg_debugging;
   msg_exploring; msg_context_pressure; msg_ready].

(** A field of a record, absent fields read as the given default. *)
Definition field (v : json) (k : string) (default : json) : json :=
  match v with
  | JDict kv =>
      match lookup_key k kv with
      | Some x => x
      | None => default
      end
  | _ => default
  end.

Definition elements (v : json) : list json :=
  match v with
  | JList l => l
  | _ => []
  end.

Definition is_traces (entry : json) : bool :=
  eq_str (field entry "type" JNull) "traces".

(** The spans of a record: resource groups, scope groups, spans. *)
Definition entry_spans (entry : json) : list json :=
  if is_traces entry then
    flat_map
      (fun rs =>
         flat_map (fun ss => elements (field ss "spans" (JList [])))
                  (elements (field rs "scopeSpans" (JList []))))
      (elements (field (field entry "data" (JDict [])) "resourceSpans" (JList [])))
  else [].

Definition span_name (span : json) : string :=
  match field span "name" (JStr "") with
  | JStr n => n
  | _ => ""
  end.

(** A tool span: the name contains "tool", whatever the case. *)
Definition is_tool_span (span : json) : bool :=
  contains "tool" (lower (span_name span)).

(** An error span: the status code equals 2. *)
Definition is_error_span (span : json) : bool :=
  eq_int (field (field span "status" (JDict [])) "code" JNull) 2.

Definition tool_spans (telemetry : list json) : list json :=
  List.filter is_tool_span (flat_map entry_spans telemetry).

(** Counting one span: a tool span is one error or one success. *)
Definition count_span (c : Counters) (span : json) : Counters :=
  if is_tool_span span then
    if is_error_span span then
      {| tool_errors := tool_errors c + 1;
         tool_successes := tool_successes c;
         unique_tools := {[ span_name span ]} ∪ unique_tools c |}
    else
      {| tool_errors := tool_errors c;
         tool_successes := tool_successes c + 1;
         unique_tools := {[ span_name span ]} ∪ unique_tools c |}
  else c.

Definition count_spans (spans : list json) (c : Counters) : Counters :=
  fold_left count_span spans c.

(** Shapes: a field is either absent or a list whose items are all fine. *)
Definition list_field_ok (elem_ok : json -> bool) (v : json) (k : string) : bool :=
  match v with
  | JDict kv =>
      match lookup_key k kv with
      | None => true
      | Some (JList l) => forallb elem_ok l
      | Some _ => false
      end
  | _ => false
  end.

Definition span_ok (span : json) : bool :=
  match span with
  | JDict kv =>
      match lookup_key "name" kv with
      | None => true
      | Some (JStr n) =>
          if contains "tool" (lower n) then
            match lookup_key "status" kv with
            | None => true
            | Some (JDict _) => true
            | Some _ => false
            end
          else true
      | Some _ => false
      end
  | _ => false
  end.

Definition metric_ok (metric : json) : bool :=
  match metric with
  | JDict kv =>
      match lookup_key "name" kv with
      | None => true
      | Some (JStr _) => true
      | Some _ => false
      end
  | _ => false
  end.

Definition scope_spans_ok (ss : json) : bool := list_field_ok span_ok ss "spans".
Definition resource_spans_ok (rs : json) : bool :=
  list_field_ok scope_spans_ok rs "scopeSpans".
Definition scope_metrics_ok (sm : json) : bool := list_field_ok metric_ok sm "metrics".
Definition resource_metrics_ok (rm : json) : bool :=
  list_field_ok scope_metrics_ok rm "scopeMetrics".

(** A record the detector accepts: it has a [type]; the nested fields it
    will visit are absent or have the expected shape. *)
Definition entry_ok (entry : json) : bool :=
  match entry with
  | JDict kv =>
      match lookup_key "type" kv with
      | None => false
      | Some ty =>
          if eq_str ty "traces" then
            match lookup_key "data" kv with
            | None => true
            | Some data => list_field_ok resource_spans_ok data "resourceSpans"
            end
          else if eq_str ty "metrics" then
            match lookup_key "data" kv with
            | None => true
            | Some data => list_field_ok resource_metrics_ok data "resourceMetrics"
            end
          else true
      end
  | _ => false
  end.

Definition well_shaped (telemetry : list json) : bool := forallb entry_ok telemetry.


Section Loader.

Variable json_loads : string -> result json.
Variable fromisoformat : string -> result datetime.




(** The loader as it behaves: the timestamp must also be naive, since
    only then can it be ordered against the cutoff. *)
Definition naive_keep (cutoff : datetime) (line : string) : option json :=
  match json_loads line with
  | Ok entry =>
      match entry_timestamp fromisoformat entry with
      | Ok ts =>
          match utcoffset ts with
          | None => if wall cutoff <? wall ts then Some entry else None
          | Some _ => None
          end
      | Raise _ => None
      end
  | Raise _ => None
  end.

(** The lines of a log when all of them decode. *)
Fixpoint decoded (lines : list (option string)) : option (list string) :=
  match lines with
  | [] => Some []
  | None :: _ => None
  | Some line :: rest =>
      match decoded rest with
      | Some ls => Some (line :: ls)
      | None => None
      end
  end.

End Loader.

(** The field names of the status snapshot as stated. *)
Definition stated_status_fields : list string :=
  ["timestamp"; "message"; "patterns"; "telemetryCount"].

Definition dict_keys (v : json) : list string :=
  match v with
  | JDict kv => map fst kv
  | _ => []
  end.

End Spec.

Export Spec.

(** ** Sample inputs *)

Module Examples.

Definition span (name : string) (code : Z) : json :=
  JDict [("name", JStr name); ("status", JDict [("code", JInt code)])].

Definition traces (spans : list json) : json :=
  JDict [("timestamp", JStr "2026-11-04T11:59:30");
         ("type", JStr "traces");
         ("data", JDict [("resourceSpans",
            JList [JDict [("scopeSpans",
              JList [JDict [("spans", JList spans)]])]])])].

(** Four successful tools with distinct names and one failing tool, twice. *)
Definition six_records : list json :=
  [traces [span "tool_read" 0]; traces [span "tool_write" 0];
   traces [span "tool_grep" 0]; traces [span "Tool_Bash" 0];
   traces [span "tool_edit" 2]; traces [span "tool_edit" 2]].

(** Three failures and two successes in one record. *)
Definition thrashing_records : list json :=
  [traces [span "tool_edit" 2; span "tool_edit" 2; span "tool_edit" 2;
           span "tool_read" 0; span "tool_grep" 1]].

(** Records with fields left out at every level. *)
Definition sparse_records : list json :=
  [JDict [("type", JStr "traces")];
   JDict [("type", JStr "traces"); ("data", JDict [])];
   JDict [("type", JStr "traces");
          ("data", JDict [("resourceSpans", JList [JDict []])])];
   JDict [("type", JStr "traces");
          ("data", JDict [("resourceSpans",
             JList [JDict [("scopeSpans", JList [JDict []])]])])];
   traces [JDict []; JDict [("name", JStr "run_tool")]];
   JDict [("type", JStr "metrics");
          ("data", JDict [("resourceMetrics",
             JList [JDict [("scopeMetrics",
               JList [JDict [("metrics", JList [JDict [("name", JStr "token.count")]])]])]])])];
   JDict [("type", JStr "logs")]].

(** The flags of the empty input: only [stuck]. *)
Definition quiet_flags : PatternFlags :=
  {| error_thrashing := false; flow_state := false; stuck := true;
     context_pressure := false; exploring := false; debugging := false |}.

(** The flags of [six_records]. *)
Definition busy_flags : PatternFlags :=
  {| error_thrashing := false; flow_state := false; stuck := false;
     context_pressure := false; exploring := true; debugging := true |}.

(** A record that went through the loader but has no [type]. *)
Definition no_type : json :=
  JDict [("timestamp", JStr "2999-01-01T00:00:00")].

(** A [traces] record whose [data] is a list. *)
Definition list_data : json :=
  JDict [("timestamp", JStr "2999-01-01T00:00:00");
         ("type", JStr "traces"); ("data", JList [])].

(** A [metrics] record whose [resourceMetrics] is a number. *)
Definition number_metrics : json :=
  JDict [("timestamp", JStr "2999-01-01T00:00:00");
         ("type", JStr "metrics");
         ("data", JDict [("resourceMetrics", JInt 5)])].

(** A tool span whose [status] is [null], on its own. *)
Definition null_status_span : json :=
  JDict [("name", JStr "tool_read"); ("status", JNull)].

(** A tool span whose [status] is [null]. *)
Definition null_status : json :=
  traces [JDict [("name", JStr "tool_read"); ("status", JNull)]].

(** A small stand-in for the library: it reads the few lines and
    timestamps used below and rejects everything else. *)
Definition dquote : string := String (ascii_of_nat 34) EmptyString.

Definition key_value (k v : string) : string :=
  dquote ++ k ++ dquote ++ ": " ++ dquote ++ v ++ dquote.

Definition line_of (ts : string) : string :=
  "{" ++ key_value "timestamp" ts ++ ", " ++ key_value "type" "traces" ++ "}".

Definition line_without_type (ts : string) : string :=
  "{" ++ key_value "timestamp" ts ++ "}".

Definition entry_of (ts : string) : json :=
  JDict [("timestamp", JStr ts); ("type", JStr "traces")].

Definition ts_old : string := "1999-01-01T00:00:00".
Definition ts_naive : string := "2999-01-01T00:00:00".
Definition ts_aware : string := "2999-01-01T00:00:00+00:00".

Definition toy_loads (line : string) : result json :=
  if String.eqb line (line_of ts_old) then Ok (entry_of ts_old)
  else if String.eqb line (line_of ts_naive) then Ok (entry_of ts_naive)
  else if String.eqb line (line_of ts_aware) then Ok (entry_of ts_aware)
  else if String.eqb line (line_without_type ts_naive)
       then Ok (JDict [("timestamp", JStr ts_naive)])
  else Raise ValueError.

Definition toy_fromisoformat (s : string) : result datetime :=
  if String.eqb s ts_old
  then Ok {| wall := 63050745600000000; utcoffset := None |}
  else if String.eqb s ts_naive
  then Ok {| wall := 94607740800000000; utcoffset := None |}
  else if String.eqb s ts_aware
  then Ok {| wall := 94607740800000000; utcoffset := Some 0 |}
  else Raise ValueError.

Definition toy_isoformat (d : datetime) : string := "2026-11-04T12:00:00".
Definition toy_dump (j : json) : string := "{...}".

(** Noon on 2026-11-04, with the log missing, holding a few lines, or
    holding one record without [type]. *)
Definition noon : Z := 63929390400000000.

Definition world_of (log : option (list (option string))) : World :=
  {| clock := fun _ => noon; reads := 0;
     telemetry_log := log; status_file := Some "stale" |}.

Definition world_no_log : World := world_of None.

Definition world_naive_log : World :=
  world_of (Some [Some (line_of ts_old); Some "not json"; Some (line_of ts_naive)]).


Definition world_no_type : World :=
  world_of (Some [Some (line_without_type ts_naive)]).

(** A log whose last line was cut inside a multi-byte character. *)
Definition world_cut_log : World :=
  world_of (Some [Some (line_of ts_naive); None]).

End Examples.

(** ** The command-line entry point *)

Module Cli.

(** Truth value of a JSON value in an [if]. *)
Definition truthy (v : json) : bool :=
  match v with
  | JNull => false
  | JBool b => b
  | JInt n => negb (n =? 0)
  | JFloat (S754_zero _) => false
  | JFloat _ => true
  | JStr s => negb (String.eqb s "")
  | JList l => match l with [] => false | _ => true end
  | JDict kv => match kv with [] => false | _ => true end
  end.

(** [v.items()]: only dicts have the method. *)
Definition items (v : json) : result (list (string * json)) :=
  match v with
  | JDict kv => Ok kv
  | _ => Raise AttributeError
  end.

(** [str(n)] for an integer. *)
Definition str_of_int (n : Z) : string := pretty n.

Section Main.

Variable json_loads : string -> result json.
Variable fromisoformat : string -> result datetime.
Variable isoformat : datetime -> string.
Variable json_dump : json -> string.

(** The expanded [self.status_file] path, and what an f-string shows
    for the values that are neither strings nor integers. *)
Variable status_path : string.
Variable repr : json -> string.

(** [f"{v}"]. *)
Definition format (v : json) : string :=
  match v with
  | JStr s => s
  | JInt n => str_of_int n
  | _ => repr v
  end.

(** The body of [for pattern, detected in ...items()]: the lines it
    prints. *)
Definition pattern_lines (its : list (string * json)) : list string :=
  flat_map (fun it => if truthy (snd it) then ["  ✓ " ++ fst it] else []) its.

(** [main]: the outcome, the world afterwards and the lines printed. *)
Definition main (w : World) : result unit * World * list string :=
  let '(r, w') := update_statusline json_loads fromisoformat isoformat json_dump w in
  match r with
  | Raise e => (Raise e, w', [])
  | Ok status =>
      let out := ["=== Telemetry Pattern Analysis ==="] in
      match getitem status "timestamp" with
      | Raise e => (Raise e, w', out)
      | Ok ts =>
      let out := (out ++ [("Timestamp: " ++ format ts)%string])%list in
      match getitem status "telemetry_count" with
      | Raise e => (Raise e, w', out)
      | Ok count =>
      let out := (out ++ [("Events analyzed: " ++ format count)%string; ""; "Detected Patterns:"])%list in
      match (patterns ← getitem status "patterns"; items patterns) with
      | Raise e => (Raise e, w', out)
      | Ok its =>
      let out := (out ++ pattern_lines its ++ [""])%list in
      match getitem status "message" with
      | Raise e => (Raise e, w', out)
      | Ok message =>
      (Ok tt, w',
       (out ++ [("Coaching Message: " ++ format message)%string; "";
                ("Status written to: " ++ status_path)%string])%list)
      end end end end
  end.

End Main.

End Cli.

Export Cli.

(** ** The fluent pipeline (pipeline-python.py) *)

Module Pipeline.

Definition fmul (x y : spec_float) : spec_float := SFmul prec emax x y.

Definition lit_1_0 : spec_float := Eval vm_compute in literal 1 1.
Definition lit_0_5 : spec_float := Eval vm_compute in literal 5 10.
Definition lit_0_7 : spec_float := Eval vm_compute in literal 7 10.
Definition lit_0_3 : spec_float := Eval vm_compute in literal 3 10.
Definition lit_0_6 : spec_float := Eval vm_compute in literal 6 10.

(** A [Dict] as its items. *)
Definition dict : Type := list (string * json).

(** [d[k] = v]: the value of an existing key is replaced where it
    stands, a new key goes to the end. *)
Fixpoint dict_set (k : string) (v : json) (d : dict) : dict :=
  match d with
  | [] => [(k, v)]
  | (k', v') :: rest =>
      if String.eqb k k' then (k, v) :: rest else (k', v') :: dict_set k v rest
  end.

(** The dataclass [PipelineContext]. *)
Record PipelineContext := {
  intent : string;
  domain : option string;
  template : option dict;
  context : option dict;
  output : option string;
  errors : list string;
  confidence : spec_float
}.

(** The calls made to the loggers: the pipeline's own logger, and the
    root logger of the [logging] module. *)
Inductive log_call :=
| Info (msg : string)
| Warning (msg : string)
| RootInfo (msg : string)
| RootWarning (msg : string)
| RootError (msg : string).

(** A [ReflectionPipeline]: its context and the log calls so far. *)
Record ReflectionPipeline := {
  ctx : PipelineContext;
  logged : list log_call
}.

(** Truth values of the optional fields. *)
Definition has_text (o : option string) : bool :=
  match o with
  | Some s => negb (String.eqb s "")
  | None => false
  end.

Definition has_items (o : option dict) : bool :=
  match o with
  | Some (_ :: _) => true
  | _ => false
  end.

Definition has_errors (c : PipelineContext) : bool :=
  match errors c with
  | [] => false
  | _ => true
  end.

(** [f"{domain}"] for an optional string. *)
Definition show_optional (o : option string) : string :=
  match o with
  | Some s => s
  | None => "None"
  end.

(** [', '.join(errors)]. *)
Definition join_errors (l : list string) : string := String.concat ", " l.

Definition log (call : log_call) (p : ReflectionPipeline) : ReflectionPipeline :=
  {| ctx := ctx p; logged := (logged p ++ [call])%list |}.

Definition set_ctx (c : PipelineContext) (p : ReflectionPipeline) : ReflectionPipeline :=
  {| ctx := c; logged := logged p |}.

(** [ReflectionPipeline(intent)]. *)
Definition new (i : string) : ReflectionPipeline :=
  {| ctx := {| intent := i; domain := None; template := None; context := None;
               output := None; errors := []; confidence := lit_1_0 |};
     logged := [] |}.

Definition with_domain (d : string) (p : ReflectionPipeline) : ReflectionPipeline :=
  let c := ctx p in
  log (Info ("📁 Domain: " ++ d))
    (set_ctx {| intent := intent c; domain := Some d; template := template c;
                context := context c; output := output c; errors := errors c;
                confidence := confidence c |} p).

Definition with_template (t : dict) (p : ReflectionPipeline) : ReflectionPipeline :=
  let c := ctx p in
  log (Info "📄 Template loaded")
    (set_ctx {| intent := intent c; domain := domain c; template := Some t;
                context := context c; output := output c; errors := errors c;
                confidence := confidence c |} p).

Definition with_context (x : dict) (p : ReflectionPipeline) : ReflectionPipeline :=
  let c := ctx p in
  log (Info "📊 Context added")
    (set_ctx {| intent := intent c; domain := domain c; template := template c;
                context := Some x; output := output c; errors := errors c;
                confidence := confidence c |} p).

(** [errors.append(msg); confidence *= factor]. *)
Definition penalize (msg : string) (factor : spec_float) (c : PipelineContext)
  : PipelineContext :=
  {| intent := intent c; domain := domain c; template := template c;
     context := context c; output := output c;
     errors := (errors c ++ [msg])%list;
     confidence := fmul (confidence c) factor |}.

Definition validate (p : ReflectionPipeline) : ReflectionPipeline :=
  let c0 := ctx p in
  let c1 := if has_text (domain c0) then c0
            else penalize "Domain is required" lit_0_5 c0 in
  let c2 := if has_items (template c1) then c1
            else penalize "Template is required" lit_0_7 c1 in
  log (if has_errors c2
       then Warning ("⚠️ Validation issues: " ++ join_errors (errors c2))
       else Info "✅ Validation passed")
    (set_ctx c2 p).

(** [transform(func)].  The callable is given by what it does to the
    context: the context it leaves (the one it returns, or on an
    exception the one it was handed, as it stands then) and, when it
    raises an [Exception], the text of that exception. *)
Definition transform (func : PipelineContext -> PipelineContext * option string)
    (p : ReflectionPipeline) : ReflectionPipeline :=
  match func (ctx p) with
  | (c, None) => log (Info "🔄 Transform applied") (set_ctx c p)
  | (c, Some e) => set_ctx (penalize ("Transform failed: " ++ e) lit_0_3 c) p
  end.

Definition generate (p : ReflectionPipeline) : ReflectionPipeline :=
  let c := ctx p in
  if has_errors c then log (Warning "⚠️ Skipping generation due to errors") p
  else
    log (Info "✨ Content generated")
      (set_ctx {| intent := intent c; domain := domain c; template := template c;
                  context := context c;
                  output := Some ("Generated " ++ show_optional (domain c)
                                  ++ " for: " ++ intent c);
                  errors := errors c; confidence := confidence c |} p).

(** [[e for e in errors if word not in e]]. *)
Definition without (word : string) (l : list string) : list string :=
  List.filter (fun e => negb (contains word e)) l.

Definition recover (p : ReflectionPipeline) : ReflectionPipeline :=
  if has_errors (ctx p) then
    let p1 := log (Info "🔧 Attempting recovery...") p in
    let c1 := ctx p1 in
    let p2 :=
      if (negb (has_text (domain c1)) && contains "handoff" (lower (intent c1)))%bool
      then log (Info "  → Auto-detected domain: handoff")
             (set_ctx {| intent := intent c1; domain := Some "handoff";
                         template := template c1; context := context c1;
                         output := output c1;
                         errors := without "Domain" (errors c1);
                         confidence := confidence c1 |} p1)
      else p1 in
    let c2 := ctx p2 in
    let p3 :=
      if negb (has_items (template c2))
      then log (Info "  → Using default template")
             (set_ctx {| intent := intent c2; domain := domain c2;
                         template := Some [("default", JBool true)];
                         context := context c2; output := output c2;
                         errors := without "Template" (errors c2);
                         confidence := confidence c2 |} p2)
      else p2 in
    let c3 := ctx p3 in
    set_ctx {| intent := intent c3; domain := domain c3; template := template c3;
               context := context c3; output := output c3; errors := errors c3;
               confidence := lit_0_7 |} p3
  else p.

(** What awaiting [execute()] gives: the context, or a [ValueError]
    with its text. *)
Inductive outcome :=
| Returned (c : PipelineContext)
| Failed (msg : string).

Section Execute.

(** [f"{x:.0%}"], from the library. *)
Variable percent : spec_float -> string.

Definition execute (p : ReflectionPipeline) : outcome * ReflectionPipeline :=
  let p1 := if lt (confidence (ctx p)) lit_0_6
            then log (Warning ("⚠️ Low confidence: " ++ percent (confidence (ctx p)))) p
            else p in
  if (has_errors (ctx p1) && lt (confidence (ctx p1)) lit_0_3)%bool
  then (Failed ("Pipeline failed: " ++ join_errors (errors (ctx p1))), p1)
  else (Returned (ctx p1), p1).

End Execute.

(** [batch_pipelines]. *)
Definition batch_pipelines (intents : list string) : list ReflectionPipeline :=
  map (fun i => generate (validate (with_domain "auto" (new i)))) intents.

(** [CustomPRDPipeline(intent)]. *)
Definition new_prd (i : string) : ReflectionPipeline := with_domain "prd" (new i).

Definition strings_json (l : list string) : json := JList (map JStr l).

Definition set_context_key (k : string) (v : json) (p : ReflectionPipeline)
  : ReflectionPipeline :=
  let c := ctx p in
  let d := if has_items (context c) then default [] (context c) else [] in
  set_ctx {| intent := intent c; domain := domain c; template := template c;
             context := Some (dict_set k v d); output := output c;
             errors := errors c; confidence := confidence c |} p.

Definition with_user_stories (stories : list string) (p : ReflectionPipeline)
  : ReflectionPipeline :=
  set_context_key "user_stories" (strings_json stories) p.

Definition with_pain_points (points : list string) (p : ReflectionPipeline)
  : ReflectionPipeline :=
  set_context_key "pain_points" (strings_json points) p.

(** [with PipelineContextManager(intent) as pipeline: body].  The body
    is given by the pipeline it leaves and the text of the exception it
    raises, if any; [__exit__] returns [False], so the exception goes on
    to the caller. *)
Definition managed (i : string)
    (body : ReflectionPipeline -> ReflectionPipeline * option string)
  : ReflectionPipeline * option string :=
  let p0 := log (RootInfo "Starting pipeline execution") (new i) in
  match body p0 with
  | (p1, Some e) => (recover (log (RootError ("Pipeline failed: " ++ e)) p1), Some e)
  | (p1, None) => (log (RootInfo "Pipeline completed successfully") p1, None)
  end.

End Pipeline.

(** ** More sample inputs *)

Module MoreExamples.

Import Examples.

(** Five records, five distinct tools, no failure. *)
Definition flow_records : list json :=
  [traces [span "tool_read" 0]; traces [span "tool_write" 0];
   traces [span "tool_grep" 0]; traces [span "tool_bash" 0];
   traces [span "tool_edit" 0]].

(** A metrics record in front of traces records. *)
Definition metrics_record : json :=
  JDict [("type", JStr "metrics");
         ("data", JDict [("resourceMetrics",
            JList [JDict [("scopeMetrics",
              JList [JDict [("metrics",
                JList [JDict [("name", JStr "token.usage")]])]])]])])].

Definition metrics_then_traces : list json :=
  metrics_record :: six_records.

(** One tool under two spellings. *)
Definition spelling_records : list json :=
  [traces [span "Tool_Read" 0; span "tool_read" 0; span "tool_read" 2]].

End MoreExamples.

(** ** Notions used to state the facts below *)

Module Notions.

(** A record on its own. *)
Definition runs_alone (entry : json) : bool := is_ok (scan_entry entry counters0).

(** The exceptions that reading a record can raise. *)
Definition lookup_failure (e : exn) : Prop :=
  e = KeyError \/ e = TypeError \/ e = AttributeError.

(** The lines [main] prints for the flags, in the order of the dict. *)
Definition flag_lines (p : PatternFlags) : list string :=
  ((if error_thrashing p then ["  ✓ error_thrashing"] else []) ++
   (if flow_state p then ["  ✓ flow_state"] else []) ++
   (if stuck p then ["  ✓ stuck"] else []) ++
   (if context_pressure p then ["  ✓ context_pressure"] else []) ++
   (if exploring p then ["  ✓ exploring"] else []) ++
   (if debugging p then ["  ✓ debugging"] else []))%list.

(** A callable that raises with the given text and leaves the context
    untouched. *)
Definition failing (msg : string) (c : Pipeline.PipelineContext)
  : Pipeline.PipelineContext * option string :=
  (c, Some msg).

End Notions.

Export Notions.

(** ** Facts about binary64 division *)

Module Float64Facts.

(** *** Binary digits *)

Lemma digits2_pos_bounds (p : positive) :
  2 ^ (Z.pos (digits2_pos p) - 1) <= Z.pos p < 2 ^ Z.pos (digits2_pos p).
Proof.
  induction p as [p IH | p IH |]; cbn [digits2_pos].
  - rewrite Pos2Z.inj_succ, (Pos2Z.inj_xI p).
    replace (Z.succ (Z.pos (digits2_pos p)) - 1) with (Z.succ (Z.pos (digits2_pos p) - 1)) by lia.
    rewrite !Z.pow_succ_r by lia.
    revert IH. generalize (2 ^ (Z.pos (digits2_pos p) - 1)) (2 ^ Z.pos (digits2_pos p)). lia.
  - rewrite Pos2Z.inj_succ, (Pos2Z.inj_xO p).
    replace (Z.succ (Z.pos (digits2_pos p)) - 1) with (Z.succ (Z.pos (digits2_pos p) - 1)) by lia.
    rewrite !Z.pow_succ_r by lia.
    revert IH. generalize (2 ^ (Z.pos (digits2_pos p) - 1)) (2 ^ Z.pos (digits2_pos p)). lia.
  - cbn. lia.
Qed.

Lemma Zdigits2_nonneg (m : Z) : 0 <= Zdigits2 m.
Proof. destruct m; cbn; lia. Qed.

Lemma Zdigits2_le (m k : Z) : 0 <= m < 2 ^ k -> 0 <= k -> Zdigits2 m <= k.
Proof.
  intros [Hm Hlt] Hk. destruct m as [| p | p]; cbn; try lia.
  pose proof (digits2_pos_bounds p) as [Hlo _].
  destruct (Z_le_gt_dec (Z.pos (digits2_pos p)) k) as [|Hgt]; [assumption|].
  exfalso.
  assert (2 ^ k <= 2 ^ (Z.pos (digits2_pos p) - 1)) by (apply Z.pow_le_mono_r; lia).
  lia.
Qed.

Lemma Zdigits2_ge (m k : Z) : 2 ^ k <= m -> 0 <= k -> k + 1 <= Zdigits2 m.
Proof.
  intros Hle Hk.
  assert (0 < 2 ^ k) by (apply Z.pow_pos_nonneg; lia).
  destruct m as [| p | p]; cbn; try lia.
  pose proof (digits2_pos_bounds p) as [_ Hhi].
  destruct (Z_le_gt_dec (k + 1) (Z.pos (digits2_pos p))) as [|Hgt]; [assumption|].
  exfalso.
  assert (2 ^ Z.pos (digits2_pos p) <= 2 ^ k) by (apply Z.pow_le_mono_r; lia).
  lia.
Qed.

(** *** Shifting right with a rounding record *)

(** [N] lies in the slice [m*D, (m+1)*D) at the place [l] says. *)
Definition located (N D m : Z) (l : location) : Prop :=
  match l with
  | loc_Exact => N = m * D
  | loc_Inexact Lt => m * D < N /\ 2 * N < (2 * m + 1) * D
  | loc_Inexact Eq => 2 * N = (2 * m + 1) * D
  | loc_Inexact Gt => (2 * m + 1) * D < 2 * N /\ N < (m + 1) * D
  end.

Lemma shr_1_nonneg mrs : 0 <= shr_m mrs -> 0 <= shr_m (shr_1 mrs).
Proof. destruct mrs as [[|[p|p|]|p] r s]; cbn; lia. Qed.

Lemma shr_1_half mrs : 0 <= shr_m mrs -> shr_m (shr_1 mrs) = shr_m mrs / 2.
Proof.
  destruct mrs as [[|[p|p|]|p] r s]; cbn [shr_1 shr_m]; intros H; try lia.
  - reflexivity.
  - rewrite (Pos2Z.inj_xI p). apply Z.div_unique with 1; lia.
  - rewrite (Pos2Z.inj_xO p). apply Z.div_unique with 0; lia.
  - reflexivity.
Qed.

Lemma shr_1_located N D mrs :
  0 <= shr_m mrs -> 0 < D ->
  located N D (shr_m mrs) (loc_of_shr_record mrs) ->
  located N (2 * D) (shr_m (shr_1 mrs)) (loc_of_shr_record (shr_1 mrs)).
Proof.
  destruct mrs as [[|[p|p|]|p] [|] [|]]; cbn [shr_1 shr_m loc_of_shr_record located orb];
    intros Hm HD; try lia;
    rewrite ?(Pos2Z.inj_xI p), ?(Pos2Z.inj_xO p); nia.
Qed.

(** [iter_pos shr_1 n] divides the mantissa by [2^n] and keeps the place. *)
Lemma iter_shr_1 (n : positive) : forall N D mrs,
  0 <= shr_m mrs -> 0 < D ->
  located N D (shr_m mrs) (loc_of_shr_record mrs) ->
  let mrs' := SpecFloat.iter_pos shr_1 n mrs in
  0 <= shr_m mrs' /\
  shr_m mrs' = shr_m mrs / 2 ^ Z.pos n /\
  located N (2 ^ Z.pos n * D) (shr_m mrs') (loc_of_shr_record mrs').
Proof.
  induction n as [n IH | n IH |]; intros N D mrs Hm HD Hloc; cbn [SpecFloat.iter_pos].
  - pose proof (shr_1_nonneg mrs Hm) as H1.
    pose proof (shr_1_half mrs Hm) as H1'.
    pose proof (shr_1_located N D mrs Hm HD Hloc) as H1''.
    destruct (IH N (2 * D) (shr_1 mrs) H1 ltac:(lia) H1'') as (H2 & H2' & H2'').
    assert (0 < 2 ^ Z.pos n) by (apply Z.pow_pos_nonneg; lia).
    destruct (IH N (2 ^ Z.pos n * (2 * D)) _ H2 ltac:(nia) H2'') as (H3 & H3' & H3'').
    cbv zeta. split; [assumption|]. split.
    + rewrite H3', H2', H1'. rewrite (Pos2Z.inj_xI n).
      rewrite !Z.div_div by lia.
      f_equal. replace (2 * Z.pos n + 1) with (1 + Z.pos n + Z.pos n) by lia.
      rewrite !Z.pow_add_r by lia. lia.
    + rewrite (Pos2Z.inj_xI n).
      replace (2 * Z.pos n + 1) with (Z.pos n + Z.pos n + 1) by lia.
      rewrite !Z.pow_add_r by lia.
      replace (2 ^ Z.pos n * 2 ^ Z.pos n * 2 ^ 1 * D) with (2 ^ Z.pos n * (2 ^ Z.pos n * (2 * D))) by lia.
      assumption.
  - destruct (IH N D mrs Hm HD Hloc) as (H2 & H2' & H2'').
    assert (0 < 2 ^ Z.pos n) by (apply Z.pow_pos_nonneg; lia).
    destruct (IH N (2 ^ Z.pos n * D) _ H2 ltac:(nia) H2'') as (H3 & H3' & H3'').
    cbv zeta. split; [assumption|]. split.
    + rewrite H3', H2'. rewrite (Pos2Z.inj_xO n).
      rewrite !Z.div_div by lia.
      f_equal. replace (2 * Z.pos n) with (Z.pos n + Z.pos n) by lia.
      rewrite !Z.pow_add_r by lia. lia.
    + rewrite (Pos2Z.inj_xO n).
      replace (2 * Z.pos n) with (Z.pos n + Z.pos n) by lia.
      rewrite !Z.pow_add_r by lia.
      replace (2 ^ Z.pos n * 2 ^ Z.pos n * D) with (2 ^ Z.pos n * (2 ^ Z.pos n * D)) by lia.
      assumption.
  - cbv zeta. split; [apply shr_1_nonneg; assumption|]. split.
    + rewrite shr_1_half by assumption. reflexivity.
    + change (2 ^ 1) with 2. apply shr_1_located; assumption.
Qed.


Lemma shr_record_of_loc_m m l : shr_m (shr_record_of_loc m l) = m.
Proof. destruct l as [|[| |]]; reflexivity. Qed.

Lemma loc_of_shr_record_of_loc m l : loc_of_shr_record (shr_record_of_loc m l) = l.
Proof. destruct l as [|[| |]]; reflexivity. Qed.

(** The exponent function of binary64. *)
Lemma fexp_binary64 (x : Z) : fexp prec emax x = Z.max (x - 53) (-1074).
Proof. reflexivity. Qed.

(** [shr_fexp] brings the exponent up to [fexp] of the magnitude, dividing
    the mantissa by the matching power of two. *)
Lemma shr_fexp_spec (N D m e : Z) (l : location) :
  0 <= m -> 0 < D -> located N D m l ->
  let k := Z.max (fexp prec emax (Zdigits2 m + e) - e) 0 in
  exists mrs', shr_fexp prec emax m e l = (mrs', e + k) /\
    0 <= shr_m mrs' /\
    shr_m mrs' = m / 2 ^ k /\
    located N (2 ^ k * D) (shr_m mrs') (loc_of_shr_record mrs').
Proof.
  intros Hm HD Hloc k. unfold shr_fexp, shr.
  fold (fexp prec emax (Zdigits2 m + e)).
  subst k. destruct (fexp prec emax (Zdigits2 m + e) - e) as [| n | n] eqn:Hn.
  - exists (shr_record_of_loc m l). change (Z.max 0 0) with 0.
    rewrite Z.add_0_r, shr_record_of_loc_m, loc_of_shr_record_of_loc.
    change (2 ^ 0) with 1. rewrite Z.div_1_r, Z.mul_1_l. auto.
  - replace (Z.max (Z.pos n) 0) with (Z.pos n) by lia.
    pose proof (iter_shr_1 n N D (shr_record_of_loc m l)) as H.
    rewrite shr_record_of_loc_m, loc_of_shr_record_of_loc in H.
    destruct (H Hm HD Hloc) as (H1 & H2 & H3).
    eexists. split; [reflexivity|]. auto.
  - exists (shr_record_of_loc m l). replace (Z.max (Z.neg n) 0) with 0 by lia.
    rewrite Z.add_0_r, shr_record_of_loc_m, loc_of_shr_record_of_loc.
    change (2 ^ 0) with 1. rewrite Z.div_1_r, Z.mul_1_l. auto.
Qed.

(** The remainder of a division, placed against half the divisor. *)
Lemma new_location_located (N b q r : Z) :
  0 < b -> 0 <= r < b -> N = q * b + r -> located N b q (new_location b r).
Proof.
  intros Hb Hr ->. unfold new_location, new_location_even, new_location_odd.
  destruct (Z.even b) eqn:Hev.
  - destruct (Z.eqb_spec r 0) as [-> | Hr0]; [cbn; lia|].
    destruct (Z.compare_spec (2 * r) b); cbn [located]; nia.
  - destruct (Z.eqb_spec r 0) as [-> | Hr0]; [cbn; lia|].
    assert (Hodd : Z.odd b = true) by (rewrite <- Z.negb_even, Hev; reflexivity).
    apply Z.odd_spec in Hodd. destruct Hodd as [h Hh].
    destruct (Z.compare_spec (2 * r + 1) b); cbn [located]; nia.
Qed.

(** Rounding to nearest, ties to even, moves by at most half a slice. *)
Lemma round_nearest_even_spec (N D m : Z) (l : location) :
  0 <= m -> 0 < D -> located N D m l ->
  let m1 := round_nearest_even m l in
  m <= m1 <= m + 1 /\ Z.abs (2 * N - 2 * m1 * D) <= D.
Proof.
  intros Hm HD Hloc. destruct l as [|[| |]]; cbn [round_nearest_even located] in *.
  - split; [lia|]. subst N. replace (2 * (m * D) - 2 * m * D) with 0 by lia. cbn; lia.
  - destruct (Z.even m); cbv zeta; split; try lia;
      apply Z.abs_le; nia.
  - cbv zeta. split; [lia|]. apply Z.abs_le; nia.
  - cbv zeta. split; [lia|]. apply Z.abs_le; nia.
Qed.


Lemma pow2_pos (k : Z) : 0 <= k -> 0 < 2 ^ k.
Proof. intros. apply Z.pow_pos_nonneg; lia. Qed.

Lemma pow2_split (i j : Z) : 0 <= i -> 0 <= j -> 2 ^ (i + j) = 2 ^ i * 2 ^ j.
Proof. intros. apply Z.pow_add_r; assumption. Qed.

(** The division of two positive integers [a <= b], rounded to binary64:
    the result is zero or a positive finite float [m * 2^e] within half a
    unit in the last place of [a / b]; it is a normal float unless [b] is
    astronomically larger than [a]. *)
Lemma SFdiv_int_spec (a b : positive) :
  (a <= b)%positive ->
  exists m e,
    SFdiv prec emax (of_int (Z.pos a)) (of_int (Z.pos b)) =
      match m with Z.pos p => S754_finite false p e | _ => S754_zero false end /\
    0 <= m < 2 ^ 53 /\
    -1074 <= e <= -51 /\
    Z.abs (2 * Z.pos a * 2 ^ (- e) - 2 * m * Z.pos b) <= Z.pos b /\
    (Z.pos b < 2 ^ 1000 -> 2 ^ 52 <= m).
Proof.
  intros Hab.
  pose proof (digits2_pos_bounds a) as [Ha1 Ha2].
  pose proof (digits2_pos_bounds b) as [Hb1 Hb2].
  set (d1 := Z.pos (digits2_pos a)) in *.
  set (d2 := Z.pos (digits2_pos b)) in *.
  assert (Hd1 : 1 <= d1) by (subst d1; lia).
  assert (Hd2 : 1 <= d2) by (subst d2; lia).
  assert (Hd : d1 <= d2).
  { destruct (Z_le_gt_dec d1 d2); [assumption|exfalso].
    assert (2 ^ d2 <= 2 ^ (d1 - 1)) by (apply Z.pow_le_mono_r; lia). lia. }
  cbn [SFdiv of_int xorb]. unfold SFdiv_core_binary.
  cbn [Zdigits2]. fold d1 d2.
  rewrite !Z.add_0_r. change (0 - 0) with 0.
  rewrite fexp_binary64.
  set (ez := Z.min (Z.max (d1 - d2 - 53) (-1074)) 0).
  assert (Hez : -1074 <= ez <= -53) by (subst ez; lia).
  assert (Hez' : ez = Z.max (d1 - d2 - 53) (-1074)) by (subst ez; lia).
  replace (0 - ez) with (- ez) by lia.
  destruct (- ez) as [| s | s] eqn:Hs; try lia.
  rewrite Z.shiftl_mul_pow2 by lia.
  assert (H2s : 0 < 2 ^ Z.pos s) by (apply pow2_pos; lia).
  set (N := Z.pos a * 2 ^ Z.pos s) in *.
  pose proof (Z_div_mod N (Z.pos b) ltac:(lia)) as Hdm.
  destruct (Z.div_eucl N (Z.pos b)) as [q r] eqn:Hqr.
  destruct Hdm as [HN Hr].
  assert (Hq0 : 0 <= q) by nia.
  assert (Hqs : q <= 2 ^ Z.pos s) by nia.
  pose proof (new_location_located N (Z.pos b) q r ltac:(lia) Hr ltac:(lia)) as Hloc.
  unfold binary_round_aux.
  (* first shift *)
  destruct (shr_fexp_spec N (Z.pos b) q ez _ Hq0 ltac:(lia) Hloc)
    as (mrs1 & Heq1 & Hm1nn & Hm1 & Hloc1).
  rewrite fexp_binary64 in Heq1, Hm1, Hloc1.
  set (dq := Zdigits2 q) in *.
  set (k1 := Z.max (Z.max (dq + ez - 53) (-1074) - ez) 0) in *.
  rewrite Heq1.
  assert (Hdq0 : 0 <= dq) by apply Zdigits2_nonneg.
  assert (Hdq : dq <= Z.pos s + 1).
  { apply Zdigits2_le; [|lia]. rewrite pow2_split by lia. change (2 ^ 1) with 2. lia. }
  assert (Hk1 : 0 <= k1 /\ dq - 53 <= k1 /\ ez + k1 <= -52) by (subst k1; lia).
  assert (H2k1 : 0 < 2 ^ k1) by (apply pow2_pos; lia).
  assert (Hqdq : q < 2 ^ dq).
  { subst dq. destruct q as [|p|p]; [cbn; lia| |lia].
    apply (digits2_pos_bounds p). }
  assert (Hm1lt : shr_m mrs1 < 2 ^ 53).
  { rewrite Hm1. apply Z.div_lt_upper_bound; [lia|].
    rewrite <- pow2_split by lia.
    eapply Z.lt_le_trans; [exact Hqdq|]. apply Z.pow_le_mono_r; lia. }
  set (e1 := ez + k1) in *.
  set (D1 := 2 ^ k1 * Z.pos b) in *.
  pose proof (round_nearest_even_spec N D1 (shr_m mrs1) _ Hm1nn ltac:(subst D1; nia) Hloc1)
    as [Hrnd Hhalf].
  set (m1 := round_nearest_even (shr_m mrs1) (loc_of_shr_record mrs1)) in *.
  (* the half-ulp bound at exponent e1 *)
  assert (Hpow : 2 ^ Z.pos s = 2 ^ k1 * 2 ^ (- e1)).
  { rewrite <- pow2_split by (subst e1; lia). f_equal. subst e1. lia. }
  assert (He1pos : 0 < 2 ^ (- e1)) by (apply pow2_pos; subst e1; lia).
  assert (Hulp : Z.abs (2 * Z.pos a * 2 ^ (- e1) - 2 * m1 * Z.pos b) <= Z.pos b).
  { apply Z.abs_le. apply Z.abs_le in Hhalf. subst N D1. rewrite Hpow in Hhalf.
    split; nia. }
  (* normal range *)
  assert (Hnormal : Z.pos b < 2 ^ 1000 -> 2 ^ 52 <= shr_m mrs1).
  { intros Hb.
    assert (d2 <= 1000).
    { destruct (Z_le_gt_dec d2 1000); [assumption|exfalso].
      assert (2 ^ 1000 <= 2 ^ (d2 - 1)) by (apply Z.pow_le_mono_r; lia). lia. }
    assert (Hez2 : ez = d1 - d2 - 53) by lia.
    assert (Hs2 : Z.pos s = 52 + d2 - (d1 - 1)) by lia.
    assert (H52 : 2 ^ 52 <= q).
    { assert (q = N / Z.pos b) as -> by (apply Z.div_unique with r; lia).
      apply Z.div_le_lower_bound; [lia|].
      subst N. rewrite Hs2.
      replace (52 + d2 - (d1 - 1)) with (52 + (d2 - d1) + 1) by lia.
      assert (Hp : 2 ^ (52 + (d2 - d1) + 1) * 2 ^ (d1 - 1) = 2 ^ 52 * 2 ^ d2).
      { rewrite <- !pow2_split by lia. f_equal. lia. }
      assert (0 < 2 ^ (52 + (d2 - d1) + 1)) by (apply pow2_pos; lia).
      nia. }
    assert (53 <= dq) by (apply (Zdigits2_ge q 52); lia).
    assert (Hk1' : k1 = dq - 53) by (subst k1; lia).
    rewrite Hm1. apply Z.div_le_lower_bound; [lia|].
    assert (2 ^ (dq - 1) <= q).
    { subst dq. destruct q as [|p|p]; try lia. apply (digits2_pos_bounds p). }
    replace (dq - 1) with (k1 + 52) in * by lia.
    rewrite pow2_split in * by lia. lia. }
  (* second shift *)
  assert (Hm1' : 0 <= m1) by lia.
  destruct (shr_fexp_spec (m1 * 1) 1 m1 e1 loc_Exact Hm1' ltac:(lia) eq_refl)
    as (mrs2 & Heq2 & Hm2nn & Hm2 & _).
  rewrite fexp_binary64 in Heq2, Hm2.
  rewrite Heq2.
  destruct (Z.eq_dec m1 (2 ^ 53)) as [Hcarry | Hnocarry].
  - (* the mantissa was rounded up to 2^53 *)
    assert (Hd54 : Zdigits2 m1 = 54) by (rewrite Hcarry; reflexivity).
    rewrite Hd54 in *.
    replace (Z.max (Z.max (54 + e1 - 53) (-1074) - e1) 0) with 1 in * by (subst e1; lia).
    rewrite Hm2, Hcarry. change (2 ^ 53 / 2 ^ 1) with (2 ^ 52).
    exists (2 ^ 52), (e1 + 1).
    split; [|split; [|split; [|split]]].
    + change (2 ^ 52) with (Z.pos 4503599627370496).
      cbv iota. replace (e1 + 1 <=? emax - prec) with true; [reflexivity|].
      symmetry. apply Z.leb_le. unfold emax, prec. subst e1. lia.
    + lia.
    + subst e1. lia.
    + apply Z.abs_le. apply Z.abs_le in Hulp. rewrite Hcarry in Hulp.
      replace (- e1) with (- (e1 + 1) + 1) in Hulp by lia.
      rewrite pow2_split in Hulp by (subst e1; lia).
      change (2 ^ 1) with 2 in Hulp.
      change (2 ^ 53) with (2 * 2 ^ 52) in Hulp. lia.
    + lia.
  - assert (Hm1lt' : m1 < 2 ^ 53) by lia.
    assert (Zdigits2 m1 <= 53) by (apply Zdigits2_le; lia).
    replace (Z.max (Z.max (Zdigits2 m1 + e1 - 53) (-1074) - e1) 0) with 0 in *
      by (subst e1; lia).
    rewrite Hm2. change (2 ^ 0) with 1. rewrite Z.div_1_r, Z.add_0_r.
    exists m1, e1.
    split; [|split; [|split; [|split]]].
    + destruct m1 as [|p|p]; [reflexivity| |lia].
      replace (e1 <=? emax - prec) with true; [reflexivity|].
      symmetry. apply Z.leb_le. unfold emax, prec. subst e1. lia.
    + lia.
    + subst e1. lia.
    + exact Hulp.
    + intros Hb. specialize (Hnormal Hb). lia.
Qed.


(** *** True division of counts *)

Lemma compare_cont_Eq_Z (p q : positive) :
  Pos.compare_cont Eq p q = (Z.pos p ?= Z.pos q).
Proof. reflexivity. Qed.

(** Dividing a count by a larger positive count never raises. *)
Lemma truediv_total (a b : Z) :
  0 <= a <= b -> 0 < b -> exists f, truediv a b = Ok f.
Proof.
  intros Ha Hb. unfold truediv.
  destruct (Z.eqb_spec b 0) as [|_]; [lia|].
  destruct b as [|b|b]; try lia.
  destruct a as [|a|a]; try lia.
  - eexists. reflexivity.
  - destruct (SFdiv_int_spec a b ltac:(lia)) as (m & e & -> & _).
    destruct m; eexists; reflexivity.
Qed.

(** No float is both above the literal 0.4 and below the literal 0.1. *)
Lemma gt_0_4_lt_0_1 (f : spec_float) :
  gt f lit_0_4 = true -> lt f lit_0_1 = true -> False.
Proof.
  unfold gt, lt, SFltb, SFcompare, lit_0_4, lit_0_1.
  destruct f as [s | [|] | | [|] m e]; try discriminate.
  destruct (Z.compare_spec (-54) e); destruct (Z.compare_spec e (-56));
    try discriminate; lia.
Qed.

(** On counts below [2^51] the rounded quotient compares with the
    literals 0.4 and 0.1 exactly as the rational quotient does. *)
Lemma truediv_thresholds (a b : Z) :
  0 <= a <= b -> 0 < b < 2 ^ 51 ->
  exists f, truediv a b = Ok f /\
    (gt f lit_0_4 = true <-> 2 * b < 5 * a) /\
    (lt f lit_0_1 = true <-> 10 * a < b).
Proof.
  intros Ha Hb. unfold truediv.
  destruct (Z.eqb_spec b 0) as [|_]; [lia|].
  destruct b as [|b|b]; try lia.
  destruct a as [|a|a]; try lia.
  - eexists. split; [reflexivity|]. cbn. split; split; intros; try lia; try discriminate.
  - destruct (SFdiv_int_spec a b ltac:(lia)) as (m & e & -> & Hm & He & Hulp & Hnorm).
    assert (H1000 : Z.pos b < 2 ^ 1000).
    { eapply Z.lt_trans; [apply Hb|]. reflexivity. }
    specialize (Hnorm H1000). clear H1000.
    destruct m as [|m|m]; try lia.
    eexists. split; [reflexivity|].
    unfold gt, lt, SFltb, SFcompare, lit_0_4, lit_0_1.
    rewrite !compare_cont_Eq_Z.
    apply Z.abs_le in Hulp.
    change (2 ^ 52) with 4503599627370496 in *.
    change (2 ^ 53) with 9007199254740992 in *.
    change (2 ^ 51) with 2251799813685248 in *.
    assert (HP : 0 < 2 ^ (- e)) by (apply pow2_pos; lia).
    assert (HP54 : e = -54 -> 2 ^ (- e) = 18014398509481984) by (intros ->; reflexivity).
    assert (HP56 : e = -56 -> 2 ^ (- e) = 72057594037927936) by (intros ->; reflexivity).
    assert (HP53 : -54 < e -> 2 ^ (- e) <= 9007199254740992).
    { intros. change 9007199254740992 with (2 ^ 53). apply Z.pow_le_mono_r; lia. }
    assert (HP55 : e < -54 -> 36028797018963968 <= 2 ^ (- e)).
    { intros. change 36028797018963968 with (2 ^ 55). apply Z.pow_le_mono_r; lia. }
    assert (HP57 : e < -56 -> 144115188075855872 <= 2 ^ (- e)).
    { intros. change 144115188075855872 with (2 ^ 57). apply Z.pow_le_mono_r; lia. }
    assert (HP55' : -56 < e -> 2 ^ (- e) <= 36028797018963968).
    { intros. change 36028797018963968 with (2 ^ 55). apply Z.pow_le_mono_r; lia. }
    revert Ha Hb Hm Hulp Hnorm HP HP54 HP56 HP53 HP55 HP57 HP55'.
    generalize (2 ^ (- e)) (Z.pos a) (Z.pos b) (Z.pos m).
    intros P A B M Ha Hb Hm Hulp Hnorm HP HP54 HP56 HP53 HP55 HP57 HP55'.
    assert (HMB1 : 4503599627370496 * B <= M * B) by nia.
    assert (HMB2 : M * B <= 9007199254740991 * B) by nia.
    split.
    + destruct (Z.compare_spec (-54) e) as [He54 | He54 | He54].
      * (* the binade of 0.4 *)
        specialize (HP54 ltac:(lia)).
        destruct (Z.compare_spec 7205759403792794 M) as [HM | HM | HM];
          (split; [intros Hc; try discriminate | intros Hc; try reflexivity]).
        -- exfalso. rewrite <- HM in Hulp. lia.
        -- assert (7205759403792795 * B <= M * B) by nia. lia.
        -- exfalso. assert (M * B <= 7205759403792793 * B) by nia. lia.
      * (* a higher binade: about one half or more *)
        specialize (HP53 ltac:(lia)).
        assert (A * P <= A * 9007199254740992) by nia.
        split; [intros _ | reflexivity]. lia.
      * (* a lower binade: below one quarter *)
        specialize (HP55 ltac:(lia)).
        assert (A * 36028797018963968 <= A * P) by nia.
        split; [discriminate | intros Hc; exfalso; lia].
    + destruct (Z.compare_spec e (-56)) as [He56 | He56 | He56].
      * (* the binade of 0.1 *)
        specialize (HP56 ltac:(lia)).
        destruct (Z.compare_spec M 7205759403792794) as [HM | HM | HM];
          (split; [intros Hc; try discriminate | intros Hc; try reflexivity]).
        -- exfalso. rewrite HM in Hulp. lia.
        -- assert (M * B <= 7205759403792793 * B) by nia. lia.
        -- exfalso. assert (7205759403792795 * B <= M * B) by nia. lia.
      * specialize (HP57 ltac:(lia)).
        assert (A * 144115188075855872 <= A * P) by nia.
        split; [intros _ | reflexivity]. lia.
      * specialize (HP55' ltac:(lia)).
        assert (A * P <= A * 36028797018963968) by nia.
        split; [discriminate | intros Hc; exfalso; lia].
Qed.

(** Past that range the rounding shows: this quotient is above two
    fifths, yet it rounds to the very float the literal 0.4 denotes. *)
Example truediv_rounds_to_0_4 :
  truediv 20000000000000001 50000000000000000 = Ok lit_0_4 /\
  gt lit_0_4 lit_0_4 = false /\
  2 * 50000000000000000 < 5 * 20000000000000001.
Proof. split; [vm_compute; reflexivity|]. split; [reflexivity | lia]. Qed.

End Float64Facts.

(** ** The telemetry loop against the span count *)

Module ScanFacts.

(** *** Loops *)

Lemma bind_ok {A B} (c : result A) (k : A -> result B) (b : B) :
  (x ← c; k x) = Ok b -> exists a, c = Ok a /\ k a = Ok b.
Proof. destruct c as [a|e]; cbn; [eauto | discriminate]. Qed.

Lemma for_each_app {A S} (body : A -> S -> result S) (l1 l2 : list A) (s : S) :
  for_each body (l1 ++ l2) s =
  match for_each body l1 s with
  | Ok s' => for_each body l2 s'
  | Raise e => Raise e
  end.
Proof.
  revert s. induction l1 as [|x l1 IH]; intros s; cbn; [reflexivity|].
  destruct (body x s); [apply IH | reflexivity].
Qed.

(** A loop whose turns each fold a step over some items folds the step
    over all the items. *)
Lemma for_each_fold {A B S} (body : A -> S -> result S) (sub : A -> list B)
    (step : S -> B -> S) (l : list A) :
  (forall x s s', In x l -> body x s = Ok s' -> s' = fold_left step (sub x) s) ->
  forall s s', for_each body l s = Ok s' -> s' = fold_left step (flat_map sub l) s.
Proof.
  induction l as [|x l IH]; intros Hbody s s' H; cbn in *.
  - congruence.
  - destruct (body x s) as [s1|e] eqn:Hx; [|discriminate].
    rewrite fold_left_app.
    rewrite <- (Hbody x s s1 (or_introl eq_refl) Hx).
    apply IH; [|assumption]. intros; eapply Hbody; eauto.
Qed.

(** A loop whose turns leave the state alone leaves it alone. *)
Lemma for_each_same {A S} (body : A -> S -> result S) (l : list A) :
  (forall x s s', In x l -> body x s = Ok s' -> s' = s) ->
  forall s s', for_each body l s = Ok s' -> s' = s.
Proof.
  induction l as [|x l IH]; intros Hbody s s' H; cbn in *.
  - congruence.
  - destruct (body x s) as [s1|e] eqn:Hx; [|discriminate].
    rewrite <- (Hbody x s s1 (or_introl eq_refl) Hx).
    apply IH; [|assumption]. intros; eapply Hbody; eauto.
Qed.

(** A loop whose turns all succeed succeeds, with the folded state. *)
Lemma for_each_total {A B S} (body : A -> S -> result S) (ok : A -> bool)
    (sub : A -> list B) (step : S -> B -> S) (l : list A) :
  (forall x s, In x l -> ok x = true -> body x s = Ok (fold_left step (sub x) s)) ->
  forallb ok l = true ->
  forall s, for_each body l s = Ok (fold_left step (flat_map sub l) s).
Proof.
  induction l as [|x l IH]; intros Hbody Hok s; cbn in *; [reflexivity|].
  apply andb_true_iff in Hok as [Hx Hl].
  rewrite (Hbody x s (or_introl eq_refl) Hx), fold_left_app.
  apply IH; [|assumption]. intros; apply Hbody; auto.
Qed.

(** Iterating anything but a list hands out strings, which have no
    [get]: the loop either is empty or raises. *)
Definition rejects_strings {S} (body : json -> S -> result S) : Prop :=
  forall t s, body (JStr t) s = Raise AttributeError.

Lemma for_each_strings {A S} (body : json -> S -> result S) (f : A -> string)
    (l : list A) (s s' : S) :
  rejects_strings body ->
  for_each body (map (fun x => JStr (f x)) l) s = Ok s' -> l = [] /\ s' = s.
Proof.
  intros Hrej. destruct l as [|x l]; cbn.
  - intros [= <-]. auto.
  - rewrite Hrej. discriminate.
Qed.

Lemma iter_for_each {S} (body : json -> S -> result S) (v : json) (s s' : S) :
  rejects_strings body ->
  (items ← iter v; for_each body items s) = Ok s' ->
  for_each body (elements v) s = Ok s'.
Proof.
  intros Hrej H. apply bind_ok in H as (items & Hit & Hfor).
  destruct v; cbn in Hit; try discriminate; injection Hit as <-.
  - apply (for_each_strings body (fun c => String c EmptyString)) in Hfor as [_ ->];
      [reflexivity | assumption].
  - assumption.
  - apply (for_each_strings body fst) in Hfor as [_ ->]; [reflexivity | assumption].
Qed.


Lemma for_each_total_same {A S} (body : A -> S -> result S) (ok : A -> bool)
    (l : list A) :
  (forall x s, In x l -> ok x = true -> body x s = Ok s) ->
  forallb ok l = true ->
  forall s, for_each body l s = Ok s.
Proof.
  induction l as [|x l IH]; intros Hbody Hok s; cbn in *; [reflexivity|].
  apply andb_true_iff in Hok as [Hx Hl].
  rewrite (Hbody x s (or_introl eq_refl) Hx).
  apply IH; [|assumption]. intros; apply Hbody; auto.
Qed.

Lemma flat_map_singleton {A} (l : list A) : flat_map (fun x => [x]) l = l.
Proof. induction l as [|x l IH]; cbn; [reflexivity | now rewrite IH]. Qed.

Lemma get_field (v : json) (k : string) (d x : json) :
  get v k d = Ok x -> x = field v k d.
Proof.
  destruct v; cbn; try discriminate.
  destruct (lookup_key k kv); intros [= <-]; reflexivity.
Qed.

(** *** The span loop computes the count *)

Lemma scan_span_sound (span : json) (c c' : Counters) :
  scan_span span c = Ok c' -> c' = count_span c span.
Proof.
  unfold scan_span, count_span, is_tool_span, is_error_span, span_name.
  destruct span as [|?|?|?|?|?|kv]; cbn; try discriminate.
  destruct (lookup_key "name" kv) as [[|?|?|?|n|?|?]|];
    destruct (lookup_key "status" kv) as [[|?|?|?|?|?|st]|];
    cbn; try discriminate; try congruence;
    destruct (contains "tool" (lower n)); cbn; try discriminate; try congruence.
  - destruct (lookup_key "code" st) as [code|]; cbn; [|congruence].
    destruct (eq_int code 2); congruence.
Qed.

Lemma scan_span_rejects : rejects_strings scan_span.
Proof. intros t s. reflexivity. Qed.

Lemma scan_scope_spans_sound (ss : json) (c c' : Counters) :
  scan_scope_spans ss c = Ok c' ->
  c' = count_spans (elements (field ss "spans" (JList []))) c.
Proof.
  unfold scan_scope_spans. intros H.
  apply bind_ok in H as (spans & Hget & H).
  apply get_field in Hget as ->.
  apply iter_for_each in H; [|exact scan_span_rejects].
  rewrite <- (flat_map_singleton (elements _)).
  revert H. apply for_each_fold.
  intros x s s' _ Hx. apply scan_span_sound in Hx. exact Hx.
Qed.

Lemma scan_scope_spans_rejects : rejects_strings scan_scope_spans.
Proof. intros t s. reflexivity. Qed.

Lemma scan_resource_spans_sound (rs : json) (c c' : Counters) :
  scan_resource_spans rs c = Ok c' ->
  c' = count_spans
         (flat_map (fun ss => elements (field ss "spans" (JList [])))
                   (elements (field rs "scopeSpans" (JList [])))) c.
Proof.
  unfold scan_resource_spans. intros H.
  apply bind_ok in H as (sss & Hget & H).
  apply get_field in Hget as ->.
  apply iter_for_each in H; [|exact scan_scope_spans_rejects].
  revert H. apply for_each_fold.
  intros x s s' _ Hx. apply scan_scope_spans_sound in Hx. exact Hx.
Qed.

Lemma scan_resource_spans_rejects : rejects_strings scan_resource_spans.
Proof. intros t s. reflexivity. Qed.

(** The metrics loops record nothing. *)
Lemma scan_metric_same (metric : json) (c c' : Counters) :
  scan_metric metric c = Ok c' -> c' = c.
Proof.
  unfold scan_metric. intros H. apply bind_ok in H as (name & _ & H).
  destruct name; try discriminate.
  destruct (contains "token" (lower s)); congruence.
Qed.

Lemma scan_scope_metrics_same (sm : json) (c c' : Counters) :
  scan_scope_metrics sm c = Ok c' -> c' = c.
Proof.
  unfold scan_scope_metrics. intros H.
  apply bind_ok in H as (ms & _ & H).
  apply iter_for_each in H; [|intros t s; reflexivity].
  revert H. apply for_each_same. intros x s s' _. apply scan_metric_same.
Qed.

Lemma scan_resource_metrics_same (rm : json) (c c' : Counters) :
  scan_resource_metrics rm c = Ok c' -> c' = c.
Proof.
  unfold scan_resource_metrics. intros H.
  apply bind_ok in H as (sms & _ & H).
  apply iter_for_each in H; [|intros t s; reflexivity].
  revert H. apply for_each_same. intros x s s' _. apply scan_scope_metrics_same.
Qed.

Lemma getitem_field (v : json) (k : string) (x d : json) :
  getitem v k = Ok x -> field v k d = x.
Proof.
  destruct v; cbn; try discriminate.
  destruct (lookup_key k kv); [intros [= <-]; reflexivity | discriminate].
Qed.

Lemma scan_entry_sound (entry : json) (c c' : Counters) :
  scan_entry entry c = Ok c' -> c' = count_spans (entry_spans entry) c.
Proof.
  unfold scan_entry, entry_spans, is_traces. intros H.
  apply bind_ok in H as (ty & Hty & H).
  rewrite (getitem_field _ _ _ JNull Hty).
  destruct (eq_str ty "traces").
  - apply bind_ok in H as (data & Hdata & H).
    apply get_field in Hdata as ->.
    apply bind_ok in H as (rss & Hrss & H).
    apply get_field in Hrss as ->.
    apply iter_for_each in H; [|exact scan_resource_spans_rejects].
    revert H. apply for_each_fold.
    intros x s s' _ Hx. apply scan_resource_spans_sound in Hx. exact Hx.
  - rewrite Hty in H. cbn in H.
    destruct (eq_str ty "metrics"); [|cbn; congruence].
    apply bind_ok in H as (data & _ & H).
    apply bind_ok in H as (rms & _ & H).
    apply iter_for_each in H; [|intros t s; reflexivity].
    cbn. revert H. apply for_each_same. intros x s s' _. apply scan_resource_metrics_same.
Qed.

Lemma scan_telemetry_sound (telemetry : list json) (c : Counters) :
  scan_telemetry telemetry = Ok c ->
  c = count_spans (flat_map entry_spans telemetry) counters0.
Proof.
  unfold scan_telemetry. apply for_each_fold.
  intros x s s' _. apply scan_entry_sound.
Qed.


(** *** Well-shaped records are scanned without an exception *)

Lemma scan_span_total (span : json) (c : Counters) :
  span_ok span = true -> scan_span span c = Ok (count_span c span).
Proof.
  unfold span_ok, scan_span, count_span, is_tool_span, is_error_span, span_name.
  destruct span as [|?|?|?|?|?|kv]; cbn; try discriminate.
  destruct (lookup_key "name" kv) as [[|?|?|?|n|?|?]|];
    destruct (lookup_key "status" kv) as [[|?|?|?|?|?|st]|];
    cbn; try discriminate; try reflexivity;
    destruct (contains "tool" (lower n)); cbn; try discriminate; try reflexivity.
  - destruct (lookup_key "code" st) as [code|]; cbn; [|reflexivity].
    destruct (eq_int code 2); reflexivity.
Qed.

(** A field that is absent or a list of fine items is looped over
    without an exception. *)
Lemma list_field_total {B} (body : json -> Counters -> result Counters)
    (elem_ok : json -> bool) (sub : json -> list B)
    (step : Counters -> B -> Counters) (v : json) (k : string) (c : Counters) :
  (forall x s, elem_ok x = true -> body x s = Ok (fold_left step (sub x) s)) ->
  list_field_ok elem_ok v k = true ->
  (x ← get v k (JList []); items ← iter x; for_each body items c) =
  Ok (fold_left step (flat_map sub (elements (field v k (JList [])))) c).
Proof.
  intros Hbody. unfold list_field_ok, get, field.
  destruct v as [|?|?|?|?|?|kv]; try discriminate.
  destruct (lookup_key k kv) as [[|?|?|?|?|l|?]|]; try discriminate; cbn.
  - intros Hl. apply (for_each_total body elem_ok); auto.
  - reflexivity.
Qed.

Lemma list_field_total_same (body : json -> Counters -> result Counters)
    (elem_ok : json -> bool) (v : json) (k : string) (c : Counters) :
  (forall x s, elem_ok x = true -> body x s = Ok s) ->
  list_field_ok elem_ok v k = true ->
  (x ← get v k (JList []); items ← iter x; for_each body items c) = Ok c.
Proof.
  intros Hbody. unfold list_field_ok, get.
  destruct v as [|?|?|?|?|?|kv]; try discriminate.
  destruct (lookup_key k kv) as [[|?|?|?|?|l|?]|]; try discriminate; cbn.
  - intros Hl. apply (for_each_total_same body elem_ok); auto.
  - reflexivity.
Qed.

Lemma scan_scope_spans_total (ss : json) (c : Counters) :
  scope_spans_ok ss = true ->
  scan_scope_spans ss c = Ok (count_spans (elements (field ss "spans" (JList []))) c).
Proof.
  intros H. unfold scan_scope_spans, count_spans.
  rewrite <- (flat_map_singleton (elements _)).
  apply (list_field_total scan_span span_ok); [|exact H].
  intros x s Hx. apply scan_span_total. exact Hx.
Qed.

Lemma scan_resource_spans_total (rs : json) (c : Counters) :
  resource_spans_ok rs = true ->
  scan_resource_spans rs c =
  Ok (count_spans
        (flat_map (fun ss => elements (field ss "spans" (JList [])))
                  (elements (field rs "scopeSpans" (JList [])))) c).
Proof.
  intros H. unfold scan_resource_spans, count_spans.
  apply (list_field_total scan_scope_spans scope_spans_ok); [|exact H].
  intros x s Hx. apply scan_scope_spans_total. exact Hx.
Qed.

Lemma scan_metric_total (metric : json) (c : Counters) :
  metric_ok metric = true -> scan_metric metric c = Ok c.
Proof.
  unfold metric_ok, scan_metric.
  destruct metric as [|?|?|?|?|?|kv]; cbn; try discriminate.
  destruct (lookup_key "name" kv) as [[|?|?|?|n|?|?]|]; cbn; try discriminate.
  - destruct (contains "token" (lower n)); reflexivity.
  - reflexivity.
Qed.

Lemma scan_scope_metrics_total (sm : json) (c : Counters) :
  scope_metrics_ok sm = true -> scan_scope_metrics sm c = Ok c.
Proof.
  intros H. unfold scan_scope_metrics.
  apply (list_field_total_same scan_metric metric_ok); [|exact H].
  intros x s. apply scan_metric_total.
Qed.

Lemma scan_resource_metrics_total (rm : json) (c : Counters) :
  resource_metrics_ok rm = true -> scan_resource_metrics rm c = Ok c.
Proof.
  intros H. unfold scan_resource_metrics.
  apply (list_field_total_same scan_scope_metrics scope_metrics_ok); [|exact H].
  intros x s. apply scan_scope_metrics_total.
Qed.

Lemma scan_entry_total (entry : json) (c : Counters) :
  entry_ok entry = true ->
  scan_entry entry c = Ok (count_spans (entry_spans entry) c).
Proof.
  unfold entry_ok, scan_entry, entry_spans, is_traces, count_spans.
  destruct entry as [|?|?|?|?|?|kv]; try discriminate.
  cbn [getitem field].
  destruct (lookup_key "type" kv) as [ty|] eqn:Hty; [|discriminate].
  cbn [mbind result_bind Py.bind].
  destruct (eq_str ty "traces").
  - cbn [get]. destruct (lookup_key "data" kv) as [data|]; cbn [mbind result_bind Py.bind].
    + intros H.
      apply (list_field_total scan_resource_spans resource_spans_ok); [|exact H].
      intros x s Hx. apply scan_resource_spans_total. exact Hx.
    + reflexivity.
  - destruct (eq_str ty "metrics"); [|reflexivity].
    cbn [get]. destruct (lookup_key "data" kv) as [data|]; cbn [mbind result_bind Py.bind].
    + intros H.
      apply (list_field_total_same scan_resource_metrics resource_metrics_ok); [|exact H].
      intros x s. apply scan_resource_metrics_total.
    + reflexivity.
Qed.

Lemma scan_telemetry_total (telemetry : list json) :
  well_shaped telemetry = true ->
  scan_telemetry telemetry = Ok (count_spans (flat_map entry_spans telemetry) counters0).
Proof.
  intros H. unfold scan_telemetry, count_spans.
  apply (for_each_total scan_entry entry_ok); [|exact H].
  intros x s _ Hx. apply scan_entry_total. exact Hx.
Qed.

(** *** What the count holds *)

Lemma count_spans_errors (spans : list json) (c : Counters) :
  tool_errors (count_spans spans c) =
  tool_errors c + Z.of_nat (length (List.filter is_error_span (List.filter is_tool_span spans))).
Proof.
  unfold count_spans. revert c.
  induction spans as [|x spans IH]; intros c; cbn [fold_left List.filter].
  - cbn. lia.
  - rewrite IH. unfold count_span.
    destruct (is_tool_span x); [|reflexivity].
    cbn [List.filter]. destruct (is_error_span x); cbn [tool_errors length]; lia.
Qed.

Lemma count_spans_successes (spans : list json) (c : Counters) :
  tool_successes (count_spans spans c) =
  tool_successes c +
  Z.of_nat (length (List.filter (fun x => negb (is_error_span x)) (List.filter is_tool_span spans))).
Proof.
  unfold count_spans. revert c.
  induction spans as [|x spans IH]; intros c; cbn [fold_left List.filter].
  - cbn. lia.
  - rewrite IH. unfold count_span.
    destruct (is_tool_span x); [|reflexivity].
    cbn [List.filter]. destruct (is_error_span x); cbn [tool_successes length negb]; lia.
Qed.

Lemma count_spans_tools (spans : list json) (c : Counters) :
  unique_tools (count_spans spans c) =
  list_to_set (map span_name (List.filter is_tool_span spans)) ∪ unique_tools c.
Proof.
  unfold count_spans. revert c.
  induction spans as [|x spans IH]; intros c; cbn [fold_left List.filter].
  - cbn. rewrite (left_id_L ∅ (∪)). reflexivity.
  - rewrite IH. unfold count_span.
    destruct (is_tool_span x); [|reflexivity].
    destruct (is_error_span x); cbn [unique_tools map list_to_set];
      rewrite (assoc_L (∪)), (comm_L (∪) (list_to_set _) {[ _ ]}); reflexivity.
Qed.

Lemma filter_partition_length {A} (f : A -> bool) (l : list A) :
  (length (List.filter f l) + length (List.filter (fun x => negb (f x)) l) = length l)%nat.
Proof.
  induction l as [|x l IH]; cbn; [reflexivity|].
  destruct (f x); cbn; lia.
Qed.

End ScanFacts.

(** ** The detector and the coach *)

Module DetectorFacts.

Import Float64Facts ScanFacts.

Lemma scan_counts_nonneg (telemetry : list json) (c : Counters) :
  scan_telemetry telemetry = Ok c -> 0 <= tool_errors c /\ 0 <= tool_successes c.
Proof.
  intros H. apply scan_telemetry_sound in H as ->.
  rewrite count_spans_errors, count_spans_successes. cbn. lia.
Qed.

Lemma error_rate_total (errors successes : Z) :
  0 <= errors -> 0 <= successes ->
  exists rate, error_rate_of errors successes = Ok rate.
Proof. intros He Hs. unfold error_rate_of. apply truediv_total; lia. Qed.

(** Once the loop is through, the flags follow from the counts. *)
Lemma detect_patterns_scan (telemetry : list json) (c : Counters) :
  scan_telemetry telemetry = Ok c ->
  exists rate,
    error_rate_of (tool_errors c) (tool_successes c) = Ok rate /\
    detect_patterns telemetry =
    Ok (flags_of (tool_errors c) (tool_successes c) (distinct_tools c)
                 (Z.of_nat (length telemetry)) rate).
Proof.
  intros H. destruct (scan_counts_nonneg _ _ H) as [He Hs].
  destruct (error_rate_total _ _ He Hs) as [rate Hrate].
  exists rate. split; [assumption|].
  unfold detect_patterns. rewrite H. cbn. rewrite Hrate. reflexivity.
Qed.

Lemma detect_patterns_inv (telemetry : list json) (p : PatternFlags) :
  detect_patterns telemetry = Ok p ->
  exists c rate,
    scan_telemetry telemetry = Ok c /\
    error_rate_of (tool_errors c) (tool_successes c) = Ok rate /\
    p = flags_of (tool_errors c) (tool_successes c) (distinct_tools c)
                 (Z.of_nat (length telemetry)) rate.
Proof.
  unfold detect_patterns. intros H.
  apply bind_ok in H as (c & Hc & H).
  apply bind_ok in H as (rate & Hrate & H).
  injection H as <-. eauto.
Qed.

Lemma messages_distinct : NoDup all_messages.
Proof. apply (bool_decide_eq_true_1 (NoDup all_messages)). vm_compute. reflexivity. Qed.

(** The coach's answer when [context_pressure] is clear is never the
    context-pressure message. *)
Lemma coaching_not_context_pressure (p : PatternFlags) :
  context_pressure p = false -> generate_coaching p <> msg_context_pressure.
Proof.
  intros Hcp. unfold generate_coaching. rewrite Hcp.
  destruct (error_thrashing p), (stuck p), (flow_state p), (debugging p), (exploring p);
    apply String.eqb_neq; vm_compute; reflexivity.
Qed.

(** C1. Whenever the telemetry loop completes with counts [c], the
    detector returns flags whose [error_thrashing] is set exactly when
    [tool_errors >= 3] and the error rate
    [tool_errors / max(tool_errors + tool_successes, 1)], a binary64
    quotient, is greater than the literal [0.4]; below [2^51] tool spans
    that comparison is the exact one, [5 * errors > 2 * max(errors +
    successes, 1)]. *)
Theorem error_thrashing_rule (telemetry : list json) (c : Counters) :
  scan_telemetry telemetry = Ok c ->
  exists rate p,
    error_rate_of (tool_errors c) (tool_successes c) = Ok rate /\
    detect_patterns telemetry = Ok p /\
    (error_thrashing p = true <->
     3 <= tool_errors c /\ gt rate lit_0_4 = true) /\
    (tool_errors c + tool_successes c < 2 ^ 51 ->
     (error_thrashing p = true <->
      3 <= tool_errors c /\
      2 * Z.max (tool_errors c + tool_successes c) 1 < 5 * tool_errors c)).
Proof.
  intros H. destruct (detect_patterns_scan _ _ H) as (rate & Hrate & Hdet).
  destruct (scan_counts_nonneg _ _ H) as [He Hs].
  exists rate. eexists. split; [exact Hrate|]. split; [exact Hdet|].
  cbn [error_thrashing flags_of].
  assert (Hiff : gt rate lit_0_4 && (3 <=? tool_errors c) = true <->
                 3 <= tool_errors c /\ gt rate lit_0_4 = true).
  { rewrite andb_true_iff, Z.leb_le. tauto. }
  split; [exact Hiff|].
  intros Hsmall. rewrite Hiff.
  destruct (truediv_thresholds (tool_errors c) (Z.max (tool_errors c + tool_successes c) 1))
    as (rate' & Hrate' & Hgt & _); [lia | |].
  { split; [lia|]. apply Z.max_lub_lt; [assumption | reflexivity]. }
  unfold error_rate_of in Hrate. rewrite Hrate in Hrate'. injection Hrate' as <-.
  rewrite Hgt. tauto.
Qed.


Lemma error_thrashing_rule_witness :
  let c := count_spans (flat_map entry_spans Examples.thrashing_records) counters0 in
  scan_telemetry Examples.thrashing_records = Ok c /\
  exists rate p,
    error_rate_of (tool_errors c) (tool_successes c) = Ok rate /\
    detect_patterns Examples.thrashing_records = Ok p /\
    (error_thrashing p = true <->
     3 <= tool_errors c /\ gt rate lit_0_4 = true) /\
    (tool_errors c + tool_successes c < 2 ^ 51 ->
     (error_thrashing p = true <->
      3 <= tool_errors c /\
      2 * Z.max (tool_errors c + tool_successes c) 1 < 5 * tool_errors c)).
Proof.
  assert (H : scan_telemetry Examples.thrashing_records =
              Ok (count_spans (flat_map entry_spans Examples.thrashing_records) counters0))
    by (vm_compute; reflexivity).
  split; [exact H|].
  exact (error_thrashing_rule Examples.thrashing_records _ H).
Defined.

(** C3. Whenever the telemetry loop completes, [stuck] is set exactly
    when fewer than 5 records were loaded, or exactly one distinct tool
    name was seen and more than 3 records were loaded; on the empty input
    [stuck] is the only flag set and the coach answers with the "quiet"
    message. *)
Theorem stuck_rule :
  (forall (telemetry : list json) (c : Counters),
     scan_telemetry telemetry = Ok c ->
     exists p, detect_patterns telemetry = Ok p /\
       (stuck p = true <->
        (length telemetry < 5)%nat \/
        (size (unique_tools c) = 1%nat /\ (3 < length telemetry)%nat))) /\
  detect_patterns [] = Ok Examples.quiet_flags /\
  generate_coaching Examples.quiet_flags = msg_stuck.
Proof.
  split; [|split; reflexivity].
  intros telemetry c H.
  destruct (detect_patterns_scan _ _ H) as (rate & _ & Hdet).
  eexists. split; [exact Hdet|].
  cbn [stuck flags_of]. unfold distinct_tools.
  rewrite orb_true_iff, andb_true_iff, Z.ltb_lt, Z.eqb_eq, Z.ltb_lt. lia.
Qed.

Lemma stuck_rule_witness :
  let c := count_spans (flat_map entry_spans Examples.thrashing_records) counters0 in
  scan_telemetry Examples.thrashing_records = Ok c /\
  exists p, detect_patterns Examples.thrashing_records = Ok p /\
    (stuck p = true <->
     (length Examples.thrashing_records < 5)%nat \/
     (size (unique_tools c) = 1%nat /\ (3 < length Examples.thrashing_records)%nat)).
Proof.
  assert (H : scan_telemetry Examples.thrashing_records =
              Ok (count_spans (flat_map entry_spans Examples.thrashing_records) counters0))
    by (vm_compute; reflexivity).
  split; [exact H|].
  exact (proj1 stuck_rule Examples.thrashing_records _ H).
Defined.

(** C7. Whatever flags the detector returns, [context_pressure] is
    false, and the coach's message for them is not the context-pressure
    message. *)
Theorem context_pressure_never (telemetry : list json) (p : PatternFlags) :
  detect_patterns telemetry = Ok p ->
  context_pressure p = false /\
  generate_coaching p <> msg_context_pressure.
Proof.
  intros H. apply detect_patterns_inv in H as (c & rate & _ & _ & ->).
  split; [reflexivity|].
  apply coaching_not_context_pressure. reflexivity.
Qed.

Lemma context_pressure_never_witness :
  detect_patterns Examples.six_records =
    Ok {| error_thrashing := false; flow_state := false; stuck := false;
          context_pressure := false; exploring := true; debugging := true |} /\
  context_pressure
    {| error_thrashing := false; flow_state := false; stuck := false;
       context_pressure := false; exploring := true; debugging := true |} = false /\
  generate_coaching
    {| error_thrashing := false; flow_state := false; stuck := false;
       context_pressure := false; exploring := true; debugging := true |}
  <> msg_context_pressure.
Proof.
  assert (H : detect_patterns Examples.six_records =
    Ok {| error_thrashing := false; flow_state := false; stuck := false;
          context_pressure := false; exploring := true; debugging := true |})
    by (vm_compute; reflexivity).
  split; [exact H|].
  exact (context_pressure_never Examples.six_records _ H).
Defined.

(** C9. The detector never returns [error_thrashing] and [flow_state]
    both set: the first needs the error rate above 0.4, the second needs
    it below 0.1. *)
Theorem thrashing_excludes_flow (telemetry : list json) (p : PatternFlags) :
  detect_patterns telemetry = Ok p ->
  ~ (error_thrashing p = true /\ flow_state p = true).
Proof.
  intros H [Ht Hf]. apply detect_patterns_inv in H as (c & rate & _ & _ & ->).
  cbn [error_thrashing flow_state flags_of] in Ht, Hf.
  apply andb_true_iff in Ht as [Hgt _].
  apply andb_true_iff in Hf as [_ Hlt].
  exact (gt_0_4_lt_0_1 rate Hgt Hlt).
Qed.

Lemma thrashing_excludes_flow_witness :
  exists p, detect_patterns Examples.thrashing_records = Ok p /\
    error_thrashing p = true /\
    ~ (error_thrashing p = true /\ flow_state p = true).
Proof.
  eexists. split; [vm_compute; reflexivity|]. split; [reflexivity|].
  apply (thrashing_excludes_flow Examples.thrashing_records).
  vm_compute. reflexivity.
Defined.


(** C8. Six [traces] records whose tool spans add up to 4 successes, 2
    errors and 5 distinct names give [debugging] and [exploring] set,
    [stuck], [flow_state] and [error_thrashing] clear, and the debugging
    message. *)
Theorem six_traces_debugging (telemetry : list json) (c : Counters) :
  length telemetry = 6%nat ->
  Forall (fun entry => is_traces entry = true) telemetry ->
  scan_telemetry telemetry = Ok c ->
  tool_successes c = 4 -> tool_errors c = 2 -> distinct_tools c = 5 ->
  detect_patterns telemetry = Ok Examples.busy_flags /\
  generate_coaching Examples.busy_flags = msg_debugging.
Proof.
  intros Hlen _ Hscan Hs He Hd. split; [|reflexivity].
  destruct (detect_patterns_scan _ _ Hscan) as (rate & _ & ->).
  rewrite Hs, He, Hd, Hlen. unfold flags_of, Examples.busy_flags.
  cbn. rewrite andb_false_r. reflexivity.
Qed.

Lemma six_traces_debugging_witness :
  detect_patterns Examples.six_records = Ok Examples.busy_flags /\
  generate_coaching Examples.busy_flags = msg_debugging.
Proof.
  apply (six_traces_debugging Examples.six_records
           (count_spans (flat_map entry_spans Examples.six_records) counters0)).
  - reflexivity.
  - repeat constructor.
  - vm_compute. reflexivity.
  - vm_compute. reflexivity.
  - vm_compute. reflexivity.
  - vm_compute. reflexivity.
Defined.

(** C2. The coach is a total function that answers with the message of
    the first set flag in the order error_thrashing, stuck, flow_state,
    debugging, exploring, context_pressure, and with the "ready" message
    when no flag is set; the seven messages are distinct; with
    [error_thrashing] and [flow_state] both set the answer is the
    error-thrashing message. *)
Theorem coaching_priority :
  (forall p, generate_coaching p = first_match p) /\
  (forall p, In (generate_coaching p) all_messages) /\
  NoDup all_messages /\
  (forall s c e d,
     generate_coaching
       {| error_thrashing := true; flow_state := true; stuck := s;
          context_pressure := c; exploring := e; debugging := d |}
     = msg_error_thrashing) /\
  (forall p,
     error_thrashing p = false -> stuck p = false -> flow_state p = false ->
     debugging p = false -> exploring p = false -> context_pressure p = false ->
     generate_coaching p = msg_ready).
Proof.
  split; [|split; [|split; [|split]]].
  - intros p. unfold generate_coaching, first_match, priority. cbn.
    destruct (error_thrashing p), (stuck p), (flow_state p), (debugging p),
      (exploring p), (context_pressure p); reflexivity.
  - intros p. unfold generate_coaching, all_messages.
    destruct (error_thrashing p), (stuck p), (flow_state p), (debugging p),
      (exploring p), (context_pressure p); cbn; tauto.
  - exact messages_distinct.
  - reflexivity.
  - intros p H1 H2 H3 H4 H5 H6. unfold generate_coaching.
    rewrite H1, H2, H3, H4, H5, H6. reflexivity.
Qed.

Lemma coaching_priority_witness :
  generate_coaching
    {| error_thrashing := false; flow_state := false; stuck := false;
       context_pressure := false; exploring := false; debugging := false |}
  = msg_ready.
Proof.
  apply (proj2 (proj2 (proj2 (proj2 coaching_priority)))); reflexivity.
Defined.

Lemma scan_counts (telemetry : list json) (c : Counters) :
  scan_telemetry telemetry = Ok c ->
  tool_errors c =
    Z.of_nat (length (List.filter is_error_span (tool_spans telemetry))) /\
  tool_successes c =
    Z.of_nat (length (List.filter (fun x => negb (is_error_span x))
                                  (tool_spans telemetry))) /\
  tool_errors c + tool_successes c = Z.of_nat (length (tool_spans telemetry)).
Proof.
  intros H. apply scan_telemetry_sound in H as ->.
  rewrite count_spans_errors, count_spans_successes. unfold tool_spans. cbn.
  pose proof (filter_partition_length is_error_span
                (List.filter is_tool_span (flat_map entry_spans telemetry))).
  lia.
Qed.

(** C10. A tool span (its name contains "tool" in any case) whose
    [status] is absent or an object is counted exactly once: as an error
    when its status code equals 2, as a success otherwise, in particular
    when [status] or its [code] is missing; so when the loop completes,
    the error count is the number of tool spans with code 2, the success
    count is the number of the other tool spans, and the two add up to
    the number of tool spans met.  A tool span whose [status] is there
    but is not an object is counted as neither: it raises
    [AttributeError]. *)
Theorem tool_span_classification :
  (forall kv c,
     is_tool_span (JDict kv) = true ->
     lookup_key "status" kv = None \/
     (exists st, lookup_key "status" kv = Some (JDict st)) ->
     exists c', scan_span (JDict kv) c = Ok c' /\
       if is_error_span (JDict kv)
       then tool_errors c' = tool_errors c + 1 /\ tool_successes c' = tool_successes c
       else tool_errors c' = tool_errors c /\ tool_successes c' = tool_successes c + 1) /\
  (forall kv,
     lookup_key "status" kv = None \/
     (exists st, lookup_key "status" kv = Some (JDict st) /\ lookup_key "code" st = None) ->
     is_error_span (JDict kv) = false /\
     (is_tool_span (JDict kv) = true -> span_ok (JDict kv) = true)) /\
  (forall telemetry c,
     scan_telemetry telemetry = Ok c ->
     tool_errors c =
       Z.of_nat (length (List.filter is_error_span (tool_spans telemetry))) /\
     tool_successes c =
       Z.of_nat (length (List.filter (fun x => negb (is_error_span x))
                                     (tool_spans telemetry))) /\
     tool_errors c + tool_successes c = Z.of_nat (length (tool_spans telemetry))) /\
  (forall kv st c,
     is_tool_span (JDict kv) = true ->
     lookup_key "status" kv = Some st ->
     (forall d, st <> JDict d) ->
     scan_span (JDict kv) c = Raise AttributeError).
Proof.
  split; [|split; [|split]].
  - intros kv c Htool Hst.
    assert (Hok : span_ok (JDict kv) = true).
    { pose proof Htool as Hname.
      unfold is_tool_span, span_name, field in Hname. unfold span_ok.
      destruct (lookup_key "name" kv) as [[|?|?|?|n|?|?]|]; try discriminate Hname.
      rewrite Hname. destruct Hst as [-> | (st & ->)]; reflexivity. }
    rewrite (scan_span_total _ c Hok). eexists. split; [reflexivity|].
    unfold count_span. rewrite Htool.
    destruct (is_error_span (JDict kv)); cbn; auto.
  - intros kv Hst. split.
    + unfold is_error_span, field.
      destruct Hst as [-> | (st & -> & ->)]; reflexivity.
    + intros Htool.
      unfold is_tool_span, span_name, field in Htool. unfold span_ok.
      destruct (lookup_key "name" kv) as [[|?|?|?|n|?|?]|]; try discriminate Htool.
      rewrite Htool. destruct Hst as [-> | (st & -> & _)]; reflexivity.
  - exact scan_counts.
  - intros kv st c Htool Hst Hnot.
    unfold is_tool_span, span_name, field in Htool. unfold scan_span. cbn.
    rewrite Hst.
    destruct (lookup_key "name" kv) as [[|?|?|?|n|?|?]|]; try discriminate Htool.
    cbn. rewrite Htool.
    destruct st; try reflexivity. exfalso. eapply Hnot. reflexivity.
Qed.

Lemma tool_span_classification_witness :
  let c := count_spans (flat_map entry_spans Examples.six_records) counters0 in
  scan_telemetry Examples.six_records = Ok c /\
  tool_errors c = 2 /\ tool_successes c = 4 /\
  tool_errors c + tool_successes c = Z.of_nat (length (tool_spans Examples.six_records)).
Proof.
  assert (H : scan_telemetry Examples.six_records =
              Ok (count_spans (flat_map entry_spans Examples.six_records) counters0))
    by (vm_compute; reflexivity).
  split; [exact H|].
  destruct (proj1 (proj2 (proj2 tool_span_classification)) Examples.six_records _ H)
    as (He & Hs & Hsum).
  split; [exact He|]. split; [exact Hs|]. exact Hsum.
Defined.

(** A span named "tool_read" whose [status] is [null] is a tool span,
    yet it is counted neither as an error nor as a success: scanning it
    raises [AttributeError], and so does the detector on a traces record
    that holds it. *)
Lemma null_status_not_classified :
  is_tool_span Examples.null_status_span = true /\
  (forall c, scan_span Examples.null_status_span c = Raise AttributeError) /\
  detect_patterns [Examples.traces [Examples.null_status_span]] = Raise AttributeError.
Proof. repeat split. Qed.

End DetectorFacts.

(** ** Shapes, the loader and the status writer *)

Module RunFacts.

Import Float64Facts ScanFacts DetectorFacts.

(** C4. Well-shaped telemetry is analysed without an exception.  Well
    shaped means: every record is an object with a [type]; in a traces
    record [data] is absent or an object, [resourceSpans], [scopeSpans]
    and [spans] are absent or lists of objects, the [name] of a span is
    absent or a string and the [status] of a tool span is absent or an
    object; in a metrics record [data] is absent or an object,
    [resourceMetrics], [scopeMetrics] and [metrics] are absent or lists
    of objects and the [name] of a metric is absent or a string.  An
    absent field counts as its empty default: a record without [data],
    data without [resourceSpans] or [resourceMetrics], a group without
    [scopeSpans], [spans], [scopeMetrics] or [metrics], and a span or
    metric without [name] leave the counts as they are, and a span
    without [status] is handled as one with an empty status. *)
Theorem well_shaped_no_exception :
  (forall telemetry,
     well_shaped telemetry = true ->
     exists c p,
       scan_telemetry telemetry = Ok c /\
       c = count_spans (flat_map entry_spans telemetry) counters0 /\
       detect_patterns telemetry = Ok p) /\
  (forall kv c,
     lookup_key "type" kv = Some (JStr "traces") ->
     lookup_key "data" kv = None ->
     scan_entry (JDict kv) c = Ok c) /\
  (forall kv data c,
     lookup_key "type" kv = Some (JStr "traces") ->
     lookup_key "data" kv = Some (JDict data) ->
     lookup_key "resourceSpans" data = None ->
     scan_entry (JDict kv) c = Ok c) /\
  (forall kv c,
     lookup_key "scopeSpans" kv = None -> scan_resource_spans (JDict kv) c = Ok c) /\
  (forall kv c,
     lookup_key "spans" kv = None -> scan_scope_spans (JDict kv) c = Ok c) /\
  (forall kv c,
     lookup_key "name" kv = None -> scan_span (JDict kv) c = Ok c) /\
  (forall kv c,
     lookup_key "status" kv = None ->
     scan_span (JDict kv) c = scan_span (JDict (("status", JDict []) :: kv)) c) /\
  (forall kv c,
     lookup_key "type" kv = Some (JStr "metrics") ->
     lookup_key "data" kv = None ->
     scan_entry (JDict kv) c = Ok c) /\
  (forall kv data c,
     lookup_key "type" kv = Some (JStr "metrics") ->
     lookup_key "data" kv = Some (JDict data) ->
     lookup_key "resourceMetrics" data = None ->
     scan_entry (JDict kv) c = Ok c) /\
  (forall kv c,
     lookup_key "scopeMetrics" kv = None -> scan_resource_metrics (JDict kv) c = Ok c) /\
  (forall kv c,
     lookup_key "metrics" kv = None -> scan_scope_metrics (JDict kv) c = Ok c) /\
  (forall kv c,
     lookup_key "name" kv = None -> scan_metric (JDict kv) c = Ok c).
Proof.
  repeat split.
  - intros telemetry H.
    pose proof (scan_telemetry_total telemetry H) as Hscan.
    destruct (detect_patterns_scan _ _ Hscan) as (rate & _ & Hdet).
    eauto 6.
  - intros kv c Hty Hdata. unfold scan_entry. cbn. rewrite Hty, Hdata. reflexivity.
  - intros kv data c Hty Hdata Hrs. unfold scan_entry. cbn.
    rewrite Hty, Hdata. cbn. rewrite Hrs. reflexivity.
  - intros kv c H. unfold scan_resource_spans. cbn. rewrite H. reflexivity.
  - intros kv c H. unfold scan_scope_spans. cbn. rewrite H. reflexivity.
  - intros kv c H. unfold scan_span. cbn. rewrite H.
    destruct (lookup_key "status" kv); reflexivity.
  - intros kv c H. unfold scan_span. cbn. rewrite H. reflexivity.
  - intros kv c Hty Hdata. unfold scan_entry. cbn. rewrite Hty, Hdata. reflexivity.
  - intros kv data c Hty Hdata Hrm. unfold scan_entry. cbn.
    rewrite Hty, Hdata. cbn. rewrite Hrm. reflexivity.
  - intros kv c H. unfold scan_resource_metrics. cbn. rewrite H. reflexivity.
  - intros kv c H. unfold scan_scope_metrics. cbn. rewrite H. reflexivity.
  - intros kv c H. unfold scan_metric. cbn. rewrite H. reflexivity.
Qed.

Lemma well_shaped_no_exception_witness :
  well_shaped Examples.sparse_records = true /\
  exists c p,
    scan_telemetry Examples.sparse_records = Ok c /\
    c = count_spans (flat_map entry_spans Examples.sparse_records) counters0 /\
    detect_patterns Examples.sparse_records = Ok p.
Proof.
  split; [reflexivity|].
  apply (proj1 well_shaped_no_exception Examples.sparse_records). reflexivity.
Defined.

(** A record without [type] stops the detector with [KeyError]; a
    [data] that is a list or a [status] that is [null] stops it with
    [AttributeError]; a [resourceMetrics] that is a number stops it with
    [TypeError]. *)
Lemma ill_shaped_raises :
  detect_patterns [Examples.no_type] = Raise KeyError /\
  detect_patterns [Examples.list_data] = Raise AttributeError /\
  detect_patterns [Examples.null_status] = Raise AttributeError /\
  detect_patterns [Examples.number_metrics] = Raise TypeError.
Proof. repeat split. Qed.

Section Loader.

Variable json_loads : string -> result json.
Variable fromisoformat : string -> result datetime.

Lemma scan_line_naive (cutoff : datetime) (recent : list json) (line : string) :
  utcoffset cutoff = None ->
  scan_line json_loads fromisoformat cutoff recent line =
  (recent ++ match naive_keep json_loads fromisoformat cutoff line with
             | Some entry => [entry]
             | None => []
             end)%list.
Proof.
  intros Hnaive. unfold scan_line, try_line, naive_keep.
  destruct (json_loads line) as [entry|e]; cbn; [|now rewrite app_nil_r].
  destruct (entry_timestamp fromisoformat entry) as [ts|e]; cbn; [|now rewrite app_nil_r].
  unfold dt_gt. rewrite Hnaive.
  destruct (utcoffset ts); cbn; [now rewrite app_nil_r|].
  destruct (wall cutoff <? wall ts); [reflexivity | now rewrite app_nil_r].
Qed.

(** The loop over the lines: the kept entries in order when every line
    decodes, [ValueError] otherwise. *)
Lemma read_lines_decoded (cutoff : datetime) (lines : list (option string))
    (recent : list json) :
  utcoffset cutoff = None ->
  read_lines json_loads fromisoformat cutoff lines recent =
  match decoded lines with
  | Some ls => Ok (recent ++ omap (naive_keep json_loads fromisoformat cutoff) ls)%list
  | None => Raise ValueError
  end.
Proof.
  intros Hnaive. revert recent.
  induction lines as [|[line|] lines IH]; intros recent; cbn.
  - now rewrite app_nil_r.
  - rewrite IH, scan_line_naive by assumption.
    destruct (decoded lines) as [ls|]; [|reflexivity]. cbn.
    destruct (naive_keep json_loads fromisoformat cutoff line); cbn.
    + now rewrite <- app_assoc.
    + now rewrite app_nil_r.
  - reflexivity.
Qed.

Lemma decoded_app (l1 l2 : list (option string)) :
  decoded (l1 ++ l2) =
  match decoded l1, decoded l2 with
  | Some a, Some b => Some (a ++ b)%list
  | _, _ => None
  end.
Proof.
  induction l1 as [|[x|] l1 IH]; cbn.
  - destruct (decoded l2); reflexivity.
  - rewrite IH. destruct (decoded l1), (decoded l2); reflexivity.
  - reflexivity.
Qed.

(** What the loader returns, case by case. *)
Lemma load_cases (minutes : Z) (w : World) :
  fst (load_recent_telemetry json_loads fromisoformat minutes w) =
  match telemetry_log w with
  | None => Ok []
  | Some lines =>
      if representable (clock w (reads w) - minutes * 60000000) then
        match decoded lines with
        | Some ls =>
            Ok (omap (naive_keep json_loads fromisoformat
                        {| wall := clock w (reads w) - minutes * 60000000;
                           utcoffset := None |}) ls)
        | None => Raise ValueError
        end
      else Raise OverflowError
  end.
Proof.
  unfold load_recent_telemetry.
  destruct (telemetry_log w) as [lines|]; [|reflexivity].
  cbn. unfold sub_minutes. cbn.
  destruct (representable (clock w (reads w) - minutes * 60000000)); [|reflexivity].
  cbn. rewrite read_lines_decoded by reflexivity. reflexivity.
Qed.

Lemma load_files (minutes : Z) (w : World) :
  telemetry_log (snd (load_recent_telemetry json_loads fromisoformat minutes w)) =
    telemetry_log w /\
  status_file (snd (load_recent_telemetry json_loads fromisoformat minutes w)) =
    status_file w.
Proof.
  unfold load_recent_telemetry.
  destruct (telemetry_log w) as [lines|] eqn:E; cbn; [|auto].
  destruct (sub_minutes _ _); cbn; auto.
Qed.

End Loader.




(** C5. When the loader returns records and the detector returns
    flags, the run writes and returns one object with exactly the fields
    [timestamp] (the ISO text of the clock reading taken after the
    analysis), [message], [patterns] (the six flags) and
    [telemetry_count] (the number of loaded records); the text of that
    object replaces whatever the status file held, and the log is left
    as it was.  When the loader or the detector raises, the run raises
    the same exception and the status file keeps its old text. *)
Theorem update_statusline_spec
    (json_loads : string -> result json) (fromisoformat : string -> result datetime)
    (isoformat : datetime -> string) (json_dump : json -> string) (w : World) :
  let loaded := fst (load_recent_telemetry json_loads fromisoformat 5 w) in
  let w1 := snd (load_recent_telemetry json_loads fromisoformat 5 w) in
  let run := update_statusline json_loads fromisoformat isoformat json_dump in
  match loaded with
  | Raise e =>
      fst (run w) = Raise e /\
      status_file (snd (run w)) = status_file w
  | Ok telemetry =>
      match detect_patterns telemetry with
      | Ok patterns =>
          let status :=
            JDict [("timestamp", JStr (isoformat (fst (now w1))));
                   ("message", JStr (generate_coaching patterns));
                   ("patterns",
                    JDict [("error_thrashing", JBool (error_thrashing patterns));
                           ("flow_state", JBool (flow_state patterns));
                           ("stuck", JBool (stuck patterns));
                           ("context_pressure", JBool (context_pressure patterns));
                           ("exploring", JBool (exploring patterns));
                           ("debugging", JBool (debugging patterns))]);
                   ("telemetry_count", JInt (Z.of_nat (length telemetry)))] in
          fst (run w) = Ok status /\
          status_file (snd (run w)) = Some (json_dump status) /\
          telemetry_log (snd (run w)) = telemetry_log w /\
          (forall old,
             status_file (snd (run (write_status old w))) = Some (json_dump status))
      | Raise e =>
          fst (run w) = Raise e /\
          status_file (snd (run w)) = status_file w
      end
  end.
Proof.
  cbv zeta. unfold update_statusline.
  assert (Hold : forall old,
            fst (load_recent_telemetry json_loads fromisoformat 5 (write_status old w)) =
            fst (load_recent_telemetry json_loads fromisoformat 5 w) /\
            fst (now (snd (load_recent_telemetry json_loads fromisoformat 5
                             (write_status old w)))) =
            fst (now (snd (load_recent_telemetry json_loads fromisoformat 5 w)))).
  { intros old. unfold load_recent_telemetry, write_status. cbn.
    destruct (telemetry_log w); cbn; [|auto].
    destruct (sub_minutes _ _); cbn; auto. }
  pose proof (load_files json_loads fromisoformat 5 w) as Hlog.
  destruct (load_recent_telemetry json_loads fromisoformat 5 w) as [loaded w1] eqn:Hl.
  cbn [fst snd] in *.
  destruct loaded as [telemetry|e]; [|cbn; split; [reflexivity | apply Hlog]].
  destruct (detect_patterns telemetry) as [patterns|e] eqn:Hd.
  - cbn. repeat split.
    + apply Hlog.
    + intros old. destruct (Hold old) as [Ht Hn].
      destruct (load_recent_telemetry json_loads fromisoformat 5 (write_status old w))
        as [loaded' w1'].
      cbn [fst snd] in *. subst loaded'. rewrite Hd. cbn.
      cbn in Hn. unfold status_of, patterns_json. rewrite Hn. reflexivity.
  - cbn. split; [reflexivity | apply Hlog].
Qed.

(** With the log missing the run succeeds, and the object it writes has
    a field [telemetry_count] and no field [telemetryCount]; with a
    fresh record that has no [type] the run raises [KeyError], with a
    log that does not decode it raises [ValueError], and both times the
    stale status text stays. *)
Lemma status_snapshot_differs :
  (exists status,
     fst (update_statusline Examples.toy_loads Examples.toy_fromisoformat
            Examples.toy_isoformat Examples.toy_dump Examples.world_no_log) = Ok status /\
     dict_keys status = ["timestamp"; "message"; "patterns"; "telemetry_count"] /\
     dict_keys status <> stated_status_fields /\
     lookup_key "telemetryCount"
       (match status with JDict kv => kv | _ => [] end) = None) /\
  fst (update_statusline Examples.toy_loads Examples.toy_fromisoformat
         Examples.toy_isoformat Examples.toy_dump Examples.world_no_type) = Raise KeyError /\
  status_file
    (snd (update_statusline Examples.toy_loads Examples.toy_fromisoformat
            Examples.toy_isoformat Examples.toy_dump Examples.world_no_type))
  = Some "stale" /\
  fst (update_statusline Examples.toy_loads Examples.toy_fromisoformat
         Examples.toy_isoformat Examples.toy_dump Examples.world_cut_log) = Raise ValueError /\
  status_file
    (snd (update_statusline Examples.toy_loads Examples.toy_fromisoformat
            Examples.toy_isoformat Examples.toy_dump Examples.world_cut_log))
  = Some "stale".
Proof.
  split; [|repeat split; vm_compute; reflexivity].
  eexists. split; [vm_compute; reflexivity|].
  split; [reflexivity|]. split; [discriminate | reflexivity].
Qed.

End RunFacts.

(** ** More about the detector and the coach *)

Module DetectorExtras.

Import Float64Facts ScanFacts DetectorFacts.

(** X1. Whenever the telemetry loop completes, [flow_state] is set
    exactly when there are at least 5 successes, at least 3 distinct
    tool names, and the binary64 error rate is below the literal 0.1;
    below [2^51] tool spans the last condition is
    [10 * errors < max(errors + successes, 1)]. *)
Theorem flow_state_rule (telemetry : list json) (c : Counters) :
  scan_telemetry telemetry = Ok c ->
  exists rate p,
    error_rate_of (tool_errors c) (tool_successes c) = Ok rate /\
    detect_patterns telemetry = Ok p /\
    (flow_state p = true <->
     5 <= tool_successes c /\ (3 <= size (unique_tools c))%nat /\
     lt rate lit_0_1 = true) /\
    (tool_errors c + tool_successes c < 2 ^ 51 ->
     (flow_state p = true <->
      5 <= tool_successes c /\ (3 <= size (unique_tools c))%nat /\
      10 * tool_errors c < Z.max (tool_errors c + tool_successes c) 1)).
Proof.
  intros H. destruct (detect_patterns_scan _ _ H) as (rate & Hrate & Hdet).
  destruct (scan_counts_nonneg _ _ H) as [He Hs].
  exists rate. eexists. split; [exact Hrate|]. split; [exact Hdet|].
  cbn [flow_state flags_of]. unfold distinct_tools.
  assert (Hiff : (5 <=? tool_successes c) && (3 <=? Z.of_nat (size (unique_tools c)))
                 && lt rate lit_0_1 = true <->
                 5 <= tool_successes c /\ (3 <= size (unique_tools c))%nat /\
                 lt rate lit_0_1 = true).
  { rewrite !andb_true_iff, !Z.leb_le.
    split; [intros [[H1 H2] H3] | intros (H1 & H2 & H3)]; repeat split;
      try assumption; lia. }
  split; [exact Hiff|].
  intros Hsmall. rewrite Hiff.
  destruct (truediv_thresholds (tool_errors c) (Z.max (tool_errors c + tool_successes c) 1))
    as (rate' & Hrate' & _ & Hlt); [lia | |].
  { split; [lia|]. apply Z.max_lub_lt; [assumption | reflexivity]. }
  unfold error_rate_of in Hrate. rewrite Hrate in Hrate'. injection Hrate' as <-.
  rewrite Hlt. tauto.
Qed.


Lemma flow_state_rule_witness :
  let c := count_spans (flat_map entry_spans MoreExamples.flow_records) counters0 in
  scan_telemetry MoreExamples.flow_records = Ok c /\
  exists rate p,
    error_rate_of (tool_errors c) (tool_successes c) = Ok rate /\
    detect_patterns MoreExamples.flow_records = Ok p /\
    (flow_state p = true <->
     5 <= tool_successes c /\ (3 <= size (unique_tools c))%nat /\
     lt rate lit_0_1 = true) /\
    (tool_errors c + tool_successes c < 2 ^ 51 ->
     (flow_state p = true <->
      5 <= tool_successes c /\ (3 <= size (unique_tools c))%nat /\
      10 * tool_errors c < Z.max (tool_errors c + tool_successes c) 1)).
Proof.
  assert (H : scan_telemetry MoreExamples.flow_records =
              Ok (count_spans (flat_map entry_spans MoreExamples.flow_records) counters0))
    by (vm_compute; reflexivity).
  split; [exact H|].
  exact (flow_state_rule MoreExamples.flow_records _ H).
Defined.

(** X2. Whenever the telemetry loop completes, [exploring] is set
    exactly when at least 5 distinct tool names were seen, and
    [debugging] exactly when there are at least 2 errors and at least 2
    successes. *)
Theorem exploring_debugging_rule (telemetry : list json) (c : Counters) :
  scan_telemetry telemetry = Ok c ->
  exists p, detect_patterns telemetry = Ok p /\
    (exploring p = true <-> (5 <= size (unique_tools c))%nat) /\
    (debugging p = true <-> 2 <= tool_errors c /\ 2 <= tool_successes c).
Proof.
  intros H. destruct (detect_patterns_scan _ _ H) as (rate & _ & Hdet).
  eexists. split; [exact Hdet|].
  cbn [exploring debugging flags_of]. unfold distinct_tools.
  rewrite andb_true_iff, !Z.leb_le. split; [lia | tauto].
Qed.

Lemma exploring_debugging_rule_witness :
  let c := count_spans (flat_map entry_spans Examples.six_records) counters0 in
  scan_telemetry Examples.six_records = Ok c /\
  exists p, detect_patterns Examples.six_records = Ok p /\
    (exploring p = true <-> (5 <= size (unique_tools c))%nat) /\
    (debugging p = true <-> 2 <= tool_errors c /\ 2 <= tool_successes c).
Proof.
  assert (H : scan_telemetry Examples.six_records =
              Ok (count_spans (flat_map entry_spans Examples.six_records) counters0))
    by (vm_compute; reflexivity).
  split; [exact H|].
  exact (exploring_debugging_rule Examples.six_records _ H).
Defined.

(** *** Records that are not traces *)

Lemma entry_spans_not_traces (entry : json) :
  is_traces entry = false -> entry_spans entry = [].
Proof. intros H. unfold entry_spans. rewrite H. reflexivity. Qed.

Lemma flat_map_entry_spans_traces (telemetry : list json) :
  flat_map entry_spans (List.filter is_traces telemetry) = flat_map entry_spans telemetry.
Proof.
  induction telemetry as [|x l IH]; cbn; [reflexivity|].
  destruct (is_traces x) eqn:Hx; cbn; rewrite IH; [reflexivity|].
  rewrite (entry_spans_not_traces x Hx). reflexivity.
Qed.

(** X3. Records whose type is not "traces" (metrics and anything else)
    leave the counts as they are, one by one and over the whole input:
    when the loop completes, the counts are those of the traces records
    alone. *)
Theorem non_traces_records_ignored :
  (forall entry c c',
     is_traces entry = false -> scan_entry entry c = Ok c' -> c' = c) /\
  (forall telemetry c,
     scan_telemetry telemetry = Ok c ->
     c = count_spans (flat_map entry_spans (List.filter is_traces telemetry)) counters0).
Proof.
  split.
  - intros entry c c' Hty H. apply scan_entry_sound in H as ->.
    rewrite (entry_spans_not_traces entry Hty). reflexivity.
  - intros telemetry c H. rewrite flat_map_entry_spans_traces.
    apply scan_telemetry_sound. exact H.
Qed.

Lemma non_traces_records_ignored_witness :
  let c := count_spans (flat_map entry_spans MoreExamples.metrics_then_traces) counters0 in
  scan_telemetry MoreExamples.metrics_then_traces = Ok c /\
  c = count_spans
        (flat_map entry_spans (List.filter is_traces MoreExamples.metrics_then_traces))
        counters0.
Proof.
  assert (H : scan_telemetry MoreExamples.metrics_then_traces =
              Ok (count_spans (flat_map entry_spans MoreExamples.metrics_then_traces)
                    counters0))
    by (vm_compute; reflexivity).
  split; [exact H|].
  exact (proj2 non_traces_records_ignored MoreExamples.metrics_then_traces _ H).
Defined.

(** *** The set of tool names *)

Lemma size_list_to_set_le (l : list string) :
  (size (list_to_set l : gset string) <= length l)%nat.
Proof.
  induction l as [|x l IH]; cbn [list_to_set length].
  - rewrite size_empty. lia.
  - rewrite size_union_alt, size_singleton.
    assert (Hsub : (list_to_set l : gset string) ∖ {[x]} ⊆ list_to_set l).
    { intros y Hy. apply elem_of_difference in Hy as [Hy _]. exact Hy. }
    apply subseteq_size in Hsub. lia.
Qed.

(** X4. When the loop completes, the set of tool names is the set of
    the names of the tool spans, spelled as they are (only the search
    for "tool" ignores case), and the number of distinct names is at
    most the number of errors plus the number of successes. *)
Theorem distinct_tools_bound (telemetry : list json) (c : Counters) :
  scan_telemetry telemetry = Ok c ->
  unique_tools c = list_to_set (map span_name (tool_spans telemetry)) /\
  distinct_tools c <= tool_errors c + tool_successes c.
Proof.
  intros H.
  destruct (scan_counts telemetry c H) as (_ & _ & Hsum).
  apply scan_telemetry_sound in H as Hc.
  assert (Hset : unique_tools c = list_to_set (map span_name (tool_spans telemetry))).
  { rewrite Hc, count_spans_tools. cbn [unique_tools counters0].
    rewrite (right_id_L ∅ (∪)). reflexivity. }
  split; [exact Hset|].
  rewrite Hsum. unfold distinct_tools. rewrite Hset.
  pose proof (size_list_to_set_le (map span_name (tool_spans telemetry))) as Hle.
  rewrite length_map in Hle. lia.
Qed.

Lemma distinct_tools_bound_witness :
  let c := count_spans (flat_map entry_spans MoreExamples.spelling_records) counters0 in
  scan_telemetry MoreExamples.spelling_records = Ok c /\
  unique_tools c = list_to_set (map span_name (tool_spans MoreExamples.spelling_records)) /\
  distinct_tools c <= tool_errors c + tool_successes c.
Proof.
  assert (H : scan_telemetry MoreExamples.spelling_records =
              Ok (count_spans (flat_map entry_spans MoreExamples.spelling_records) counters0))
    by (vm_compute; reflexivity).
  split; [exact H|].
  exact (distinct_tools_bound MoreExamples.spelling_records _ H).
Defined.


(** *** Whether a record raises does not depend on the counts *)

Definition same_outcome {S} (r1 r2 : result S) : Prop :=
  match r1, r2 with
  | Ok _, Ok _ => True
  | Raise e1, Raise e2 => e1 = e2
  | _, _ => False
  end.

Definition steady {A S} (body : A -> S -> result S) : Prop :=
  forall x s s', same_outcome (body x s) (body x s').

Lemma for_each_steady {A S} (body : A -> S -> result S) (l : list A) :
  steady body -> forall s s', same_outcome (for_each body l s) (for_each body l s').
Proof.
  intros Hbody. induction l as [|x l IH]; intros s s'; cbn; [exact I|].
  specialize (Hbody x s s').
  destruct (body x s), (body x s'); cbn in *; try contradiction; auto.
Qed.

Lemma loop_steady {S} (body : json -> S -> result S) (v : json) (k : string) (s s' : S) :
  steady body ->
  same_outcome (x ← get v k (JList []); items ← iter x; for_each body items s)
               (x ← get v k (JList []); items ← iter x; for_each body items s').
Proof.
  intros Hbody. destruct (get v k (JList [])) as [x|e]; cbn; [|reflexivity].
  destruct (iter x) as [items|e]; cbn; [|reflexivity].
  apply for_each_steady. exact Hbody.
Qed.

Lemma scan_span_steady : steady scan_span.
Proof.
  intros span c c'. unfold scan_span.
  destruct (get span "name" (JStr "")) as [name|e]; cbn; [|reflexivity].
  destruct (get span "status" (JDict [])) as [status|e]; cbn; [|reflexivity].
  destruct name; cbn; try reflexivity.
  destruct (contains "tool" (lower s)); cbn; [|exact I].
  destruct (get status "code" JNull) as [code|e]; cbn; [|reflexivity].
  destruct (eq_int code 2); exact I.
Qed.

Lemma scan_scope_spans_steady : steady scan_scope_spans.
Proof. intros ss c c'. apply loop_steady. exact scan_span_steady. Qed.

Lemma scan_resource_spans_steady : steady scan_resource_spans.
Proof. intros rs c c'. apply loop_steady. exact scan_scope_spans_steady. Qed.

Lemma scan_metric_steady : steady scan_metric.
Proof.
  intros m c c'. unfold scan_metric.
  destruct (get m "name" (JStr "")) as [name|e]; cbn; [|reflexivity].
  destruct name; cbn; try reflexivity.
  destruct (contains "token" (lower s)); exact I.
Qed.

Lemma scan_scope_metrics_steady : steady scan_scope_metrics.
Proof. intros sm c c'. apply loop_steady. exact scan_metric_steady. Qed.

Lemma scan_resource_metrics_steady : steady scan_resource_metrics.
Proof. intros rm c c'. apply loop_steady. exact scan_scope_metrics_steady. Qed.

Lemma scan_entry_steady : steady scan_entry.
Proof.
  intros entry c c'. unfold scan_entry.
  destruct (getitem entry "type") as [ty|e]; cbn; [|reflexivity].
  destruct (eq_str ty "traces").
  - destruct (get entry "data" (JDict [])) as [data|e]; cbn; [|reflexivity].
    apply loop_steady. exact scan_resource_spans_steady.
  - destruct (eq_str ty "metrics"); [|exact I].
    destruct (get entry "data" (JDict [])) as [data|e]; cbn; [|reflexivity].
    apply loop_steady. exact scan_resource_metrics_steady.
Qed.

Lemma scan_entry_alone (entry : json) (c : Counters) :
  is_ok (scan_entry entry c) = runs_alone entry.
Proof.
  unfold runs_alone. pose proof (scan_entry_steady entry c counters0) as H.
  destruct (scan_entry entry c), (scan_entry entry counters0); cbn in *;
    try contradiction; reflexivity.
Qed.

Lemma for_each_scan_entry_ok (telemetry : list json) (c : Counters) :
  is_ok (for_each scan_entry telemetry c) = forallb runs_alone telemetry.
Proof.
  revert c. induction telemetry as [|x l IH]; intros c; cbn; [reflexivity|].
  rewrite <- (scan_entry_alone x c).
  destruct (scan_entry x c) as [c1|e]; cbn; [apply IH | reflexivity].
Qed.

Lemma detect_patterns_ok_scan (telemetry : list json) :
  is_ok (detect_patterns telemetry) = is_ok (scan_telemetry telemetry).
Proof.
  destruct (scan_telemetry telemetry) as [c|e] eqn:H.
  - destruct (detect_patterns_scan _ _ H) as (rate & _ & ->). reflexivity.
  - unfold detect_patterns. rewrite H. reflexivity.
Qed.

(** X5. Whether the detector raises is decided record by record: it
    returns flags exactly when every record, analysed on its own, gets
    through; and the exception it raises is that of the first record
    that fails on its own, whatever comes after it. *)
Theorem exceptions_are_local :
  (forall telemetry,
     is_ok (detect_patterns telemetry) = forallb runs_alone telemetry) /\
  (forall before bad after e,
     forallb runs_alone before = true ->
     scan_entry bad counters0 = Raise e ->
     detect_patterns (before ++ bad :: after) = Raise e).
Proof.
  split.
  - intros telemetry. rewrite detect_patterns_ok_scan.
    apply for_each_scan_entry_ok.
  - intros before bad after e Hbefore Hbad.
    unfold detect_patterns, scan_telemetry. rewrite for_each_app.
    pose proof (for_each_scan_entry_ok before counters0) as Hok.
    rewrite Hbefore in Hok.
    destruct (for_each scan_entry before counters0) as [c|e'] eqn:Hc; [|discriminate].
    cbn [for_each].
    pose proof (scan_entry_steady bad c counters0) as Hst. rewrite Hbad in Hst.
    destruct (scan_entry bad c) as [c'|e']; cbn in Hst; [contradiction|].
    subst e'. reflexivity.
Qed.

Lemma exceptions_are_local_witness :
  detect_patterns (Examples.six_records ++ Examples.no_type :: Examples.six_records)%list
  = Raise KeyError.
Proof.
  apply (proj2 exceptions_are_local Examples.six_records Examples.no_type
           Examples.six_records KeyError); vm_compute; reflexivity.
Defined.

(** *** Which exceptions can come out *)

Lemma for_each_raises {A S} (body : A -> S -> result S) (P : exn -> Prop) (l : list A) :
  (forall x s e, body x s = Raise e -> P e) ->
  forall s e, for_each body l s = Raise e -> P e.
Proof.
  intros Hbody. induction l as [|x l IH]; intros s e; cbn; [discriminate|].
  destruct (body x s) as [s1|e1] eqn:Hx.
  - apply IH.
  - intros [= <-]. eapply Hbody. exact Hx.
Qed.

Lemma get_raises (v : json) (k : string) (d : json) (e : exn) :
  get v k d = Raise e -> lookup_failure e.
Proof.
  destruct v; cbn; try (intros [= <-]; right; right; reflexivity).
  destruct (lookup_key k kv); discriminate.
Qed.

Lemma iter_raises (v : json) (e : exn) : iter v = Raise e -> lookup_failure e.
Proof. destruct v; cbn; try discriminate; intros [= <-]; right; left; reflexivity. Qed.

Lemma getitem_raises (v : json) (k : string) (e : exn) :
  getitem v k = Raise e -> lookup_failure e.
Proof.
  destruct v; cbn; try (intros [= <-]; right; left; reflexivity).
  destruct (lookup_key k kv); [discriminate | intros [= <-]; left; reflexivity].
Qed.

Lemma loop_raises (body : json -> Counters -> result Counters) (v : json) (k : string)
    (c : Counters) (e : exn) :
  (forall x s e, body x s = Raise e -> lookup_failure e) ->
  (x ← get v k (JList []); items ← iter x; for_each body items c) = Raise e ->
  lookup_failure e.
Proof.
  intros Hbody.
  destruct (get v k (JList [])) as [x|e1] eqn:Hget; cbn.
  - destruct (iter x) as [items|e2] eqn:Hit; cbn.
    + apply for_each_raises. exact Hbody.
    + intros [= <-]. eapply iter_raises. exact Hit.
  - intros [= <-]. eapply get_raises. exact Hget.
Qed.

Lemma scan_span_raises (span : json) (c : Counters) (e : exn) :
  scan_span span c = Raise e -> lookup_failure e.
Proof.
  unfold scan_span.
  destruct (get span "name" (JStr "")) as [name|e1] eqn:Hn; cbn;
    [|intros [= <-]; eapply get_raises; exact Hn].
  destruct (get span "status" (JDict [])) as [status|e1] eqn:Hs; cbn;
    [|intros [= <-]; eapply get_raises; exact Hs].
  destruct name; cbn; try (intros [= <-]; right; right; reflexivity).
  destruct (contains "tool" (lower s)); cbn; [|discriminate].
  destruct (get status "code" JNull) as [code|e1] eqn:Hc; cbn;
    [|intros [= <-]; eapply get_raises; exact Hc].
  destruct (eq_int code 2); discriminate.
Qed.

Lemma scan_metric_raises (metric : json) (c : Counters) (e : exn) :
  scan_metric metric c = Raise e -> lookup_failure e.
Proof.
  unfold scan_metric.
  destruct (get metric "name" (JStr "")) as [name|e1] eqn:Hn; cbn;
    [|intros [= <-]; eapply get_raises; exact Hn].
  destruct name; cbn; try (intros [= <-]; right; right; reflexivity).
  destruct (contains "token" (lower s)); discriminate.
Qed.

Lemma scan_entry_raises (entry : json) (c : Counters) (e : exn) :
  scan_entry entry c = Raise e -> lookup_failure e.
Proof.
  unfold scan_entry.
  destruct (getitem entry "type") as [ty|e1] eqn:Hty; cbn;
    [|intros [= <-]; eapply getitem_raises; exact Hty].
  destruct (eq_str ty "traces").
  - destruct (get entry "data" (JDict [])) as [data|e1] eqn:Hd; cbn;
      [|intros [= <-]; eapply get_raises; exact Hd].
    apply loop_raises. intros rs s1 e1.
    apply loop_raises. intros ss s2 e2.
    apply loop_raises. apply scan_span_raises.
  - destruct (eq_str ty "metrics"); [|discriminate].
    destruct (get entry "data" (JDict [])) as [data|e1] eqn:Hd; cbn;
      [|intros [= <-]; eapply get_raises; exact Hd].
    apply loop_raises. intros rm s1 e1.
    apply loop_raises. intros sm s2 e2.
    apply loop_raises. apply scan_metric_raises.
Qed.

(** X6. The only exceptions the detector raises are [KeyError],
    [TypeError] and [AttributeError], all from reading the records: the
    division for the error rate never raises [ZeroDivisionError] or
    [OverflowError]. *)
Theorem detector_exceptions (telemetry : list json) (e : exn) :
  detect_patterns telemetry = Raise e ->
  lookup_failure e /\ scan_telemetry telemetry = Raise e.
Proof.
  intros H. destruct (scan_telemetry telemetry) as [c|e'] eqn:Hscan.
  - destruct (detect_patterns_scan _ _ Hscan) as (rate & _ & Hdet). congruence.
  - unfold detect_patterns in H. rewrite Hscan in H. injection H as ->.
    split; [|reflexivity].
    revert Hscan. unfold scan_telemetry. apply for_each_raises.
    apply scan_entry_raises.
Qed.

Lemma detector_exceptions_witness :
  lookup_failure AttributeError /\
  scan_telemetry [Examples.null_status] = Raise AttributeError.
Proof.
  apply (detector_exceptions [Examples.null_status] AttributeError). reflexivity.
Defined.


(** *** The order of the records *)

Lemma filter_length_perm {A} (f : A -> bool) (l1 l2 : list A) :
  Permutation l1 l2 -> length (List.filter f l1) = length (List.filter f l2).
Proof.
  induction 1 as [|x l1 l2 _ IH|x y l|l1 l2 l3 _ IH1 _ IH2]; cbn.
  - reflexivity.
  - destruct (f x); cbn; lia.
  - destruct (f x), (f y); reflexivity.
  - lia.
Qed.

Lemma filter_perm {A} (f : A -> bool) (l1 l2 : list A) :
  Permutation l1 l2 -> Permutation (List.filter f l1) (List.filter f l2).
Proof.
  induction 1 as [|x l1 l2 _ IH|x y l|l1 l2 l3 _ IH1 _ IH2]; cbn.
  - constructor.
  - destruct (f x); [constructor|]; exact IH.
  - destruct (f x), (f y); try reflexivity. constructor.
  - etransitivity; eassumption.
Qed.

Lemma forallb_perm {A} (f : A -> bool) (l1 l2 : list A) :
  Permutation l1 l2 -> forallb f l1 = forallb f l2.
Proof.
  induction 1 as [|x l1 l2 _ IH|x y l|l1 l2 l3 _ IH1 _ IH2]; cbn.
  - reflexivity.
  - rewrite IH. reflexivity.
  - destruct (f x), (f y); reflexivity.
  - congruence.
Qed.

Lemma count_spans_perm (l1 l2 : list json) (c : Counters) :
  Permutation l1 l2 -> count_spans l1 c = count_spans l2 c.
Proof.
  intros Hp.
  pose proof (count_spans_errors l1 c) as He1.
  pose proof (count_spans_errors l2 c) as He2.
  pose proof (count_spans_successes l1 c) as Hs1.
  pose proof (count_spans_successes l2 c) as Hs2.
  pose proof (count_spans_tools l1 c) as Ht1.
  pose proof (count_spans_tools l2 c) as Ht2.
  pose proof (filter_perm is_tool_span _ _ Hp) as Hpt.
  rewrite (filter_length_perm is_error_span _ _ Hpt) in He1.
  rewrite (filter_length_perm (fun x => negb (is_error_span x)) _ _ Hpt) in Hs1.
  assert (Hset : (list_to_set (map span_name (List.filter is_tool_span l1)) : gset string) =
                 list_to_set (map span_name (List.filter is_tool_span l2))).
  { apply list_to_set_perm_L. apply Permutation_map. exact Hpt. }
  rewrite Hset in Ht1.
  destruct (count_spans l1 c) as [e1 s1 t1], (count_spans l2 c) as [e2 s2 t2].
  cbn in *. congruence.
Qed.

(** X7. The flags do not depend on the order of the records: if the
    detector returns flags for a sequence, it returns the same flags for
    every rearrangement of it. *)
Theorem detect_patterns_order (l1 l2 : list json) (p : PatternFlags) :
  Permutation l1 l2 ->
  detect_patterns l1 = Ok p -> detect_patterns l2 = Ok p.
Proof.
  intros Hp H1.
  pose proof (for_each_scan_entry_ok l1 counters0) as Hok1.
  fold (scan_telemetry l1) in Hok1.
  rewrite <- detect_patterns_ok_scan, H1 in Hok1. cbn in Hok1.
  pose proof (for_each_scan_entry_ok l2 counters0) as Hok2.
  rewrite <- (forallb_perm runs_alone _ _ Hp), <- Hok1 in Hok2.
  fold (scan_telemetry l2) in Hok2.
  destruct (scan_telemetry l2) as [c2|e] eqn:Hs2; [|discriminate].
  apply detect_patterns_inv in H1 as (c1 & rate1 & Hs1 & Hr1 & ->).
  destruct (detect_patterns_scan _ _ Hs2) as (rate2 & Hr2 & ->).
  apply scan_telemetry_sound in Hs1, Hs2.
  assert (c1 = c2) as <-.
  { rewrite Hs1, Hs2. apply count_spans_perm.
    apply Permutation_flat_map. exact Hp. }
  rewrite Hr1 in Hr2. injection Hr2 as <-.
  rewrite (Permutation_length Hp). reflexivity.
Qed.

Lemma detect_patterns_order_witness :
  detect_patterns (rev Examples.six_records) = Ok Examples.busy_flags.
Proof.
  apply (detect_patterns_order Examples.six_records (rev Examples.six_records)).
  - apply Permutation_rev.
  - vm_compute. reflexivity.
Defined.

(** X8. With fewer than five loaded records the coach can only answer
    with the error-thrashing message or the "quiet" message: every other
    message needs at least five records, however many tool spans they
    hold. *)
Theorem few_records_message (telemetry : list json) (p : PatternFlags) :
  detect_patterns telemetry = Ok p ->
  (length telemetry < 5)%nat ->
  stuck p = true /\
  generate_coaching p = (if error_thrashing p then msg_error_thrashing else msg_stuck).
Proof.
  intros H Hlen. apply detect_patterns_inv in H as (c & rate & _ & _ & ->).
  assert (Hstuck : stuck (flags_of (tool_errors c) (tool_successes c) (distinct_tools c)
                            (Z.of_nat (length telemetry)) rate) = true).
  { cbn [stuck flags_of]. apply orb_true_iff. left. apply Z.ltb_lt. lia. }
  split; [exact Hstuck|].
  unfold generate_coaching. rewrite Hstuck. reflexivity.
Qed.

Lemma few_records_message_witness :
  exists p, detect_patterns Examples.thrashing_records = Ok p /\
    stuck p = true /\ generate_coaching p = msg_error_thrashing.
Proof.
  eexists. split; [vm_compute; reflexivity|].
  apply (few_records_message Examples.thrashing_records).
  - vm_compute. reflexivity.
  - cbn. lia.
Defined.

(** X9. The message tells which flag won: each of the seven messages is
    returned exactly when its flag is set and every flag before it in
    the priority order is clear (for "ready": when all six are clear). *)
Theorem message_identifies_flag (p : PatternFlags) :
  (generate_coaching p = msg_error_thrashing <-> error_thrashing p = true) /\
  (generate_coaching p = msg_stuck <->
   error_thrashing p = false /\ stuck p = true) /\
  (generate_coaching p = msg_flow_state <->
   error_thrashing p = false /\ stuck p = false /\ flow_state p = true) /\
  (generate_coaching p = msg_debugging <->
   error_thrashing p = false /\ stuck p = false /\ flow_state p = false /\
   debugging p = true) /\
  (generate_coaching p = msg_exploring <->
   error_thrashing p = false /\ stuck p = false /\ flow_state p = false /\
   debugging p = false /\ exploring p = true) /\
  (generate_coaching p = msg_context_pressure <->
   error_thrashing p = false /\ stuck p = false /\ flow_state p = false /\
   debugging p = false /\ exploring p = false /\ context_pressure p = true) /\
  (generate_coaching p = msg_ready <->
   error_thrashing p = false /\ stuck p = false /\ flow_state p = false /\
   debugging p = false /\ exploring p = false /\ context_pressure p = false).
Proof.
  unfold generate_coaching.
  destruct (error_thrashing p), (stuck p), (flow_state p), (debugging p),
    (exploring p), (context_pressure p);
    repeat split; intros;
    first [ reflexivity
          | match goal with
            | H : _ /\ _ |- _ => decompose [and] H; discriminate
            end
          | match goal with
            | H : @eq bool _ _ |- _ => discriminate H
            end
          | match goal with
            | H : @eq string _ _ |- _ =>
                exfalso; apply String.eqb_eq in H; vm_compute in H; discriminate H
            end ].
Qed.

End DetectorExtras.

(** ** More about the loader, the writer and [main] *)

Module RunExtras.

Import Float64Facts ScanFacts DetectorFacts RunFacts DetectorExtras.

Section Loader.

Variable json_loads : string -> result json.
Variable fromisoformat : string -> result datetime.

Local Abbreviation load := (load_recent_telemetry json_loads fromisoformat).
Local Abbreviation keep := (naive_keep json_loads fromisoformat).

Definition cutoff_of (minutes : Z) (w : World) : datetime :=
  {| wall := clock w (reads w) - minutes * 60000000; utcoffset := None |}.

(** A load that returns: the log decoded and the cutoff was in range. *)
Lemma load_returns (minutes : Z) (w : World) (l : list json) :
  fst (load minutes w) = Ok l ->
  match telemetry_log w with
  | None => l = []
  | Some lines =>
      exists ls, decoded lines = Some ls /\ l = omap (keep (cutoff_of minutes w)) ls
  end.
Proof.
  rewrite (load_cases json_loads fromisoformat minutes w).
  destruct (telemetry_log w) as [lines|]; [|congruence].
  destruct (representable _); [|discriminate].
  destruct (decoded lines) as [ls|]; [|discriminate].
  intros [= <-]. exists ls. auto.
Qed.

Lemma keep_wider (c1 c2 : datetime) (line : string) (entry : json) :
  wall c2 <= wall c1 -> keep c1 line = Some entry -> keep c2 line = Some entry.
Proof.
  intros Hle. unfold naive_keep.
  destruct (json_loads line) as [e|]; [|discriminate].
  destruct (entry_timestamp fromisoformat e) as [ts|]; [|discriminate].
  destruct (utcoffset ts); [discriminate|].
  destruct (wall c1 <? wall ts) eqn:H1; [|discriminate].
  apply Z.ltb_lt in H1.
  replace (wall c2 <? wall ts) with true; [auto|].
  symmetry. apply Z.ltb_lt. lia.
Qed.

Lemma omap_keep_wider (c1 c2 : datetime) (lines : list string) :
  wall c2 <= wall c1 -> omap (keep c1) lines `sublist_of` omap (keep c2) lines.
Proof.
  intros Hle. induction lines as [|line lines IH]; cbn; [constructor|].
  destruct (keep c1 line) as [entry|] eqn:H1.
  - rewrite (keep_wider c1 c2 line entry Hle H1). constructor. exact IH.
  - destruct (keep c2 line); [constructor|]; exact IH.
Qed.

(** X10. Widening the time window never drops a record: at the same
    clock reading, when the loader returns for a window and for a longer
    one, what it returns for the first is, in order, part of what it
    returns for the second. *)
Theorem load_window_monotone (m1 m2 : Z) (w : World) (l1 l2 : list json) :
  m1 <= m2 ->
  fst (load m1 w) = Ok l1 ->
  fst (load m2 w) = Ok l2 ->
  l1 `sublist_of` l2.
Proof.
  intros Hle H1 H2. apply load_returns in H1, H2.
  destruct (telemetry_log w) as [lines|].
  - destruct H1 as (ls1 & Hd1 & ->), H2 as (ls2 & Hd2 & ->).
    rewrite Hd1 in Hd2. injection Hd2 as <-.
    apply omap_keep_wider. cbn. lia.
  - subst. constructor.
Qed.

(** X11. The loader reads a log piece by piece: at the same clock
    reading, loading a log that is one log followed by another returns
    the records of the first followed by the records of the second when
    both loads return, and raises when either of them raises; so
    appended lines that decode can only append records, and appended
    bytes that do not decode make the load raise. *)
Theorem load_appended (minutes : Z) (ticks : nat -> Z) (n : nat)
    (status : option string) (lines more : list (option string)) :
  let world_of log :=
    {| clock := ticks; reads := n; telemetry_log := Some log; status_file := status |} in
  fst (load minutes (world_of (lines ++ more)%list)) =
  match fst (load minutes (world_of lines)), fst (load minutes (world_of more)) with
  | Ok l1, Ok l2 => Ok (l1 ++ l2)%list
  | Raise e, _ => Raise e
  | Ok _, Raise e => Raise e
  end.
Proof.
  cbv zeta. rewrite !(load_cases json_loads fromisoformat). cbn [telemetry_log clock reads].
  destruct (representable (ticks n - minutes * 60000000)); [|reflexivity].
  rewrite decoded_app.
  destruct (decoded lines) as [a|], (decoded more) as [b|]; try reflexivity.
  rewrite omap_app. reflexivity.
Qed.

(** X12. Every record the loader returns is an object with a string
    [timestamp] that parses to a naive datetime strictly after the
    cutoff, so subscripting it with ['type'] never raises [TypeError];
    the loader returns at most one record per line and leaves both files
    as they were. *)
Theorem loaded_records_shape (minutes : Z) (w : World) :
  (forall l entry,
     fst (load minutes w) = Ok l -> In entry l ->
     exists kv s ts,
       entry = JDict kv /\
       lookup_key "timestamp" kv = Some (JStr s) /\
       fromisoformat s = Ok ts /\
       utcoffset ts = None /\
       clock w (reads w) - minutes * 60000000 < wall ts /\
       getitem entry "type" <> Raise TypeError) /\
  (forall l,
     fst (load minutes w) = Ok l ->
     (length l <= length (default [] (telemetry_log w)))%nat) /\
  telemetry_log (snd (load minutes w)) = telemetry_log w /\
  status_file (snd (load minutes w)) = status_file w.
Proof.
  split; [|split].
  - intros l entry Hl Hin. apply load_returns in Hl.
    destruct (telemetry_log w) as [lines|]; [|subst; destruct Hin].
    destruct Hl as (ls & _ & ->).
    apply list_elem_of_In, list_elem_of_omap in Hin as (line & _ & Hkeep).
    unfold naive_keep in Hkeep.
    destruct (json_loads line) as [e|]; [|discriminate].
    destruct (entry_timestamp fromisoformat e) as [ts|] eqn:Hts; [|discriminate].
    destruct (utcoffset ts) eqn:Hoff; [discriminate|].
    destruct (wall (cutoff_of minutes w) <? wall ts) eqn:Hlt; [|discriminate].
    injection Hkeep as <-. apply Z.ltb_lt in Hlt. cbn in Hlt.
    unfold entry_timestamp in Hts.
    destruct e as [|?|?|?|?|?|kv]; try discriminate Hts. cbn in Hts.
    destruct (lookup_key "timestamp" kv) as [[|?|?|?|s|?|?]|] eqn:Hk;
      try discriminate Hts. cbn in Hts.
    exists kv, s, ts. repeat split; try assumption.
    cbn. destruct (lookup_key "type" kv); discriminate.
  - intros l Hl. apply load_returns in Hl.
    destruct (telemetry_log w) as [lines|]; [|subst; cbn; lia].
    destruct Hl as (ls & Hd & ->). cbn [default from_option]. unfold id.
    assert (Hlen : length ls = length lines).
    { clear -Hd. revert ls Hd. induction lines as [|[x|] lines IH]; intros ls Hd; cbn in Hd.
      - injection Hd as <-. reflexivity.
      - destruct (decoded lines) as [ls'|]; [|discriminate].
        injection Hd as <-. cbn. rewrite (IH ls' eq_refl). reflexivity.
      - discriminate. }
    rewrite <- Hlen. clear.
    induction ls as [|line ls IH]; cbn; [lia|].
    destruct (keep (cutoff_of minutes w) line); cbn; lia.
  - apply load_files.
Qed.

End Loader.

Lemma load_window_monotone_witness :
  exists l1 l2,
    fst (load_recent_telemetry Examples.toy_loads Examples.toy_fromisoformat 5
           Examples.world_naive_log) = Ok l1 /\
    fst (load_recent_telemetry Examples.toy_loads Examples.toy_fromisoformat 60
           Examples.world_naive_log) = Ok l2 /\
    l1 `sublist_of` l2.
Proof.
  eexists. eexists.
  assert (H1 : fst (load_recent_telemetry Examples.toy_loads Examples.toy_fromisoformat 5
                      Examples.world_naive_log) =
               Ok [Examples.entry_of Examples.ts_naive]) by (vm_compute; reflexivity).
  assert (H2 : fst (load_recent_telemetry Examples.toy_loads Examples.toy_fromisoformat 60
                      Examples.world_naive_log) =
               Ok [Examples.entry_of Examples.ts_naive]) by (vm_compute; reflexivity).
  split; [exact H1|]. split; [exact H2|].
  apply (load_window_monotone Examples.toy_loads Examples.toy_fromisoformat 5 60
           Examples.world_naive_log _ _ ltac:(lia) H1 H2).
Defined.

Lemma loaded_records_shape_witness :
  exists kv s ts,
    Examples.entry_of Examples.ts_naive = JDict kv /\
    lookup_key "timestamp" kv = Some (JStr s) /\
    Examples.toy_fromisoformat s = Ok ts /\
    utcoffset ts = None /\
    Examples.noon - 5 * 60000000 < wall ts /\
    getitem (Examples.entry_of Examples.ts_naive) "type" <> Raise TypeError.
Proof.
  apply (proj1 (loaded_records_shape Examples.toy_loads Examples.toy_fromisoformat 5
                  Examples.world_naive_log)
           [Examples.entry_of Examples.ts_naive]
           (Examples.entry_of Examples.ts_naive)).
  - vm_compute. reflexivity.
  - left. reflexivity.
Defined.

Section Run.

Variable json_loads : string -> result json.
Variable fromisoformat : string -> result datetime.
Variable isoformat : datetime -> string.
Variable json_dump : json -> string.
Variable status_path : string.
Variable repr : json -> string.

(** X13. When the log file does not exist, a run reads the clock once,
    succeeds, and writes the "quiet" status: only [stuck] set, the
    "quiet" message, and a count of zero. *)
Theorem update_statusline_no_log (w : World) :
  telemetry_log w = None ->
  let status :=
    JDict [("timestamp",
            JStr (isoformat {| wall := clock w (reads w); utcoffset := None |}));
           ("message", JStr msg_stuck);
           ("patterns", patterns_json Examples.quiet_flags);
           ("telemetry_count", JInt 0)] in
  update_statusline json_loads fromisoformat isoformat json_dump w =
  (Ok status,
   {| clock := clock w; reads := S (reads w); telemetry_log := None;
      status_file := Some (json_dump status) |}).
Proof.
  intros Hlog. cbv zeta. unfold update_statusline, load_recent_telemetry.
  rewrite Hlog. cbn. rewrite Hlog. reflexivity.
Qed.

(** X14. [main] prints nothing and raises when the loader or the
    detector raises; otherwise it returns normally after printing the
    heading, the timestamp, the number of loaded records in decimal, one
    check-marked line per set flag in the order error_thrashing,
    flow_state, stuck, context_pressure, exploring, debugging, the
    coaching message and the status path; the line for context_pressure
    is never among them. *)
Theorem main_output (w : World) :
  let loaded := load_recent_telemetry json_loads fromisoformat 5 w in
  let run := main json_loads fromisoformat isoformat json_dump status_path repr w in
  match fst loaded with
  | Raise e => fst (fst run) = Raise e /\ snd run = []
  | Ok telemetry =>
      match detect_patterns telemetry with
      | Ok patterns =>
          fst (fst run) = Ok tt /\
          snd run =
            (["=== Telemetry Pattern Analysis ===";
              ("Timestamp: " ++ isoformat (fst (now (snd loaded))))%string;
              ("Events analyzed: " ++ pretty (Z.of_nat (length telemetry)))%string;
              "";
              "Detected Patterns:"] ++
             flag_lines patterns ++
             ["";
              ("Coaching Message: " ++ generate_coaching patterns)%string;
              "";
              ("Status written to: " ++ status_path)%string])%list /\
          ~ In "  ✓ context_pressure" (snd run)
      | Raise e => fst (fst run) = Raise e /\ snd run = []
      end
  end.
Proof.
  cbv zeta. unfold main, update_statusline.
  destruct (load_recent_telemetry json_loads fromisoformat 5 w) as [loaded w1].
  cbn [fst snd].
  destruct loaded as [telemetry|e]; [|cbn; auto].
  destruct (detect_patterns telemetry) as [patterns|e] eqn:Hd; [|cbn; auto].
  assert (Hcp : context_pressure patterns = false).
  { apply detect_patterns_inv in Hd as (c & rate & _ & _ & ->). reflexivity. }
  cbn. unfold flag_lines, pattern_lines. cbn. rewrite Hcp.
  split; [reflexivity|]. split.
  - destruct (error_thrashing patterns), (flow_state patterns), (stuck patterns),
      (exploring patterns), (debugging patterns); reflexivity.
  - destruct (error_thrashing patterns), (flow_state patterns), (stuck patterns),
      (exploring patterns), (debugging patterns); cbn;
      intros H; repeat (destruct H as [H|H]; [discriminate H|]); exact H.
Qed.

End Run.

Lemma main_output_witness :
  snd (main Examples.toy_loads Examples.toy_fromisoformat Examples.toy_isoformat
         Examples.toy_dump "/home/dev/.watchhill/statusline-coaching.json"
         (fun _ => "?") Examples.world_no_log) =
  ["=== Telemetry Pattern Analysis ===";
   "Timestamp: 2026-11-04T12:00:00";
   "Events analyzed: 0";
   "";
   "Detected Patterns:";
   "  ✓ stuck";
   "";
   "Coaching Message: 🤔 Seems quiet. Need help exploring options?";
   "";
   "Status written to: /home/dev/.watchhill/statusline-coaching.json"].
Proof.
  exact (proj1 (proj2 (main_output Examples.toy_loads Examples.toy_fromisoformat
                         Examples.toy_isoformat Examples.toy_dump
                         "/home/dev/.watchhill/statusline-coaching.json"
                         (fun _ => "?") Examples.world_no_log))).
Defined.

Lemma update_statusline_no_log_witness :
  fst (update_statusline Examples.toy_loads Examples.toy_fromisoformat
         Examples.toy_isoformat Examples.toy_dump Examples.world_no_log) =
  Ok (JDict [("timestamp", JStr "2026-11-04T12:00:00");
             ("message", JStr msg_stuck);
             ("patterns", patterns_json Examples.quiet_flags);
             ("telemetry_count", JInt 0)]).
Proof.
  rewrite (update_statusline_no_log Examples.toy_loads Examples.toy_fromisoformat
             Examples.toy_isoformat Examples.toy_dump Examples.world_no_log eq_refl).
  reflexivity.
Defined.

End RunExtras.

(** ** The fluent pipeline *)

Module PipelineFacts.

Import Pipeline.

(** *** Products of the confidence factors *)

Lemma full_times_half : fmul lit_1_0 lit_0_5 = lit_0_5.
Proof. vm_compute. reflexivity. Qed.

Lemma full_times_0_7 : fmul lit_1_0 lit_0_7 = lit_0_7.
Proof. vm_compute. reflexivity. Qed.

Lemma full_times_0_3 : fmul lit_1_0 lit_0_3 = lit_0_3.
Proof. vm_compute. reflexivity. Qed.

Lemma execute_ctx (percent : spec_float -> string) (p : ReflectionPipeline) :
  fst (execute percent p) =
  if (has_errors (ctx p) && lt (confidence (ctx p)) lit_0_3)%bool
  then Failed ("Pipeline failed: " ++ join_errors (errors (ctx p)))
  else Returned (ctx p).
Proof.
  unfold execute. destruct (lt (confidence (ctx p)) lit_0_6); cbn [log ctx];
    destruct (has_errors (ctx p) && lt (confidence (ctx p)) lit_0_3)%bool; reflexivity.
Qed.

(** X15. A pipeline at full confidence survives one validation: right
    after a single [validate], [execute] returns the context and does
    not raise, whatever is missing. *)
Theorem validate_once_executes (percent : spec_float -> string) (p : ReflectionPipeline) :
  confidence (ctx p) = lit_1_0 ->
  fst (execute percent (validate p)) = Returned (ctx (validate p)).
Proof.
  intros Hc. rewrite execute_ctx.
  replace (lt (confidence (ctx (validate p))) lit_0_3) with false;
    [rewrite andb_false_r; reflexivity|].
  unfold validate. cbn [ctx log set_ctx].
  destruct (has_text (domain (ctx p))); cbn [template penalize];
    destruct (has_items (template (ctx p))); cbn [confidence penalize];
    rewrite Hc; vm_compute; reflexivity.
Qed.


Lemma validate_once_executes_witness :
  fst (execute (fun _ => "35%") (validate (new "Start session"))) =
  Returned (ctx (validate (new "Start session"))).
Proof.
  apply (validate_once_executes (fun _ => "35%") (new "Start session")).
  reflexivity.
Defined.

(** X16. [validate] is not idempotent: on a pipeline at full confidence
    with neither domain nor template, validating twice records both
    messages twice and [execute] then raises [ValueError] listing them. *)
Theorem validate_twice_fails (percent : spec_float -> string) (p : ReflectionPipeline) :
  confidence (ctx p) = lit_1_0 ->
  has_text (domain (ctx p)) = false ->
  has_items (template (ctx p)) = false ->
  errors (ctx (validate (validate p))) =
    (errors (ctx p) ++ ["Domain is required"; "Template is required";
                        "Domain is required"; "Template is required"])%list /\
  fst (execute percent (validate (validate p))) =
    Failed ("Pipeline failed: " ++
            join_errors (errors (ctx p) ++
                         ["Domain is required"; "Template is required";
                          "Domain is required"; "Template is required"])).
Proof.
  intros Hc Hd Ht.
  assert (Herr : errors (ctx (validate (validate p))) =
    (errors (ctx p) ++ ["Domain is required"; "Template is required";
                        "Domain is required"; "Template is required"])%list).
  { unfold validate. cbn [ctx log set_ctx]. rewrite Hd. cbn [penalize template domain].
    rewrite Ht. cbn [penalize template domain]. rewrite Hd. cbn [penalize template domain].
    rewrite Ht. cbn [penalize errors]. rewrite <- !app_assoc. reflexivity. }
  split; [exact Herr|].
  rewrite execute_ctx, Herr.
  replace (has_errors (ctx (validate (validate p)))) with true.
  2:{ unfold has_errors. rewrite Herr. destruct (errors (ctx p)); reflexivity. }
  replace (lt (confidence (ctx (validate (validate p)))) lit_0_3) with true;
    [reflexivity|].
  unfold validate. cbn [ctx log set_ctx]. rewrite Hd. cbn [penalize template domain].
  rewrite Ht. cbn [penalize template domain]. rewrite Hd. cbn [penalize template domain].
  rewrite Ht. cbn [penalize confidence]. rewrite Hc. vm_compute. reflexivity.
Qed.

Lemma validate_twice_fails_witness :
  fst (execute (fun _ => "12%") (validate (validate (new "Start session")))) =
  Failed ("Pipeline failed: Domain is required, Template is required, " ++
          "Domain is required, Template is required").
Proof.
  apply (validate_twice_fails (fun _ => "12%") (new "Start session")); reflexivity.
Defined.

(** X17. Validation is what stops generation: a new pipeline generates
    at once, with the text "None" standing for the missing domain, while
    a new pipeline that was validated first generates nothing. *)
Theorem generate_needs_validation (i : string) :
  output (ctx (generate (new i))) = Some ("Generated None for: " ++ i) /\
  output (ctx (generate (validate (new i)))) = None.
Proof. split; reflexivity. Qed.

Lemma execute_recovered (percent : spec_float -> string) (p : ReflectionPipeline) :
  fst (execute percent (recover p)) = Returned (ctx (recover p)).
Proof.
  rewrite execute_ctx.
  destruct (has_errors (ctx p)) eqn:He.
  - replace (lt (confidence (ctx (recover p))) lit_0_3) with false;
      [rewrite andb_false_r; reflexivity|].
    unfold recover. rewrite He. reflexivity.
  - unfold recover. rewrite He. rewrite He. reflexivity.
Qed.

(** X18. After [recover], [execute] never raises: it returns the
    recovered context, whatever state the pipeline was in. *)
Theorem recover_then_execute (percent : spec_float -> string) (p : ReflectionPipeline) :
  fst (execute percent (recover p)) = Returned (ctx (recover p)).
Proof. apply execute_recovered. Qed.

Lemma without_sublist (word : string) (l : list string) :
  without word l `sublist_of` l.
Proof.
  unfold without. induction l as [|x l IH]; cbn; [constructor|].
  destruct (negb (contains word x)); constructor; exact IH.
Qed.

Lemma without_clean (word : string) (l : list string) (e : string) :
  In e (without word l) -> contains word e = false.
Proof.
  unfold without. intros H. apply filter_In in H as [_ H].
  apply negb_true_iff in H. exact H.
Qed.

(** X19. On a pipeline with errors, [recover] sets the confidence to
    0.7, leaves a non-empty template, and never adds an error: the
    errors afterwards are, in order, some of the errors before; when the
    template was missing, every error whose text contains "Template" is
    gone, whatever it was about. *)
Theorem recover_effect (p : ReflectionPipeline) :
  has_errors (ctx p) = true ->
  confidence (ctx (recover p)) = lit_0_7 /\
  has_items (template (ctx (recover p))) = true /\
  errors (ctx (recover p)) `sublist_of` errors (ctx p) /\
  (has_items (template (ctx p)) = false ->
   forall e, In e (errors (ctx (recover p))) -> contains "Template" e = false).
Proof.
  intros He. unfold recover. rewrite He. cbn [ctx log set_ctx confidence].
  split; [reflexivity|].
  destruct (negb (has_text (domain (ctx p))) && contains "handoff" (lower (intent (ctx p))))%bool;
    cbn [ctx log set_ctx template errors];
    destruct (has_items (template (ctx p))) eqn:Ht;
    cbn [negb ctx log set_ctx template errors has_items].
  - split; [exact Ht|]. split; [apply without_sublist | discriminate].
  - split; [reflexivity|]. split.
    + etransitivity; apply without_sublist.
    + intros _ e. apply without_clean.
  - split; [exact Ht|]. split; [reflexivity | discriminate].
  - split; [reflexivity|]. split; [apply without_sublist|].
    intros _ e. apply without_clean.
Qed.

Lemma recover_effect_witness :
  confidence (ctx (recover (validate (new "Start session")))) = lit_0_7 /\
  errors (ctx (recover (validate (new "Start session")))) = ["Domain is required"].
Proof.
  split; [|reflexivity].
  apply (recover_effect (validate (new "Start session"))). reflexivity.
Defined.

(** X20. Validate, recover, generate on a new pipeline: when the intent
    contains "handoff" in any case the domain is found, no error is left
    and the output is "Generated handoff for: <intent>"; otherwise the
    domain stays missing, "Domain is required" is the one error left and
    nothing is generated.  Either way the template is the default one
    and the confidence is 0.7. *)
Theorem validate_recover_generate (i : string) :
  let c := ctx (generate (recover (validate (new i)))) in
  template c = Some [("default", JBool true)] /\
  confidence c = lit_0_7 /\
  if contains "handoff" (lower i)
  then domain c = Some "handoff" /\ errors c = [] /\
       output c = Some ("Generated handoff for: " ++ i)
  else domain c = None /\ errors c = ["Domain is required"] /\ output c = None.
Proof.
  cbv zeta. unfold generate, recover, validate, new.
  cbn -[contains lower lit_0_7].
  destruct (contains "handoff" (lower i)); cbn; repeat split; reflexivity.
Qed.


(** X21. A transform whose callable raises appends "Transform failed:
    <text>" to the errors the callable left and multiplies the
    confidence it left by 0.3; [execute] right after it raises exactly
    when that product is below 0.3.  So when the callable left the
    confidence at 1.0 the product is exactly 0.3, which is not below
    0.3, and [execute] returns; when it left a confidence of 0.3, as
    after an earlier failed transform, [execute] raises the [ValueError]
    listing the errors; and two failed transforms from full confidence
    whose callables leave the context as they found it make [execute]
    raise, the message listing both failures after the earlier
    errors. *)
Theorem failed_transforms (percent : spec_float -> string)
    (func : PipelineContext -> PipelineContext * option string)
    (p : ReflectionPipeline) (c : PipelineContext) (msg : string) :
  func (ctx p) = (c, Some msg) ->
  let p1 := transform func p in
  errors (ctx p1) = (errors c ++ [("Transform failed: " ++ msg)%string])%list /\
  confidence (ctx p1) = fmul (confidence c) lit_0_3 /\
  fst (execute percent p1) =
    (if lt (fmul (confidence c) lit_0_3) lit_0_3
     then Failed ("Pipeline failed: " ++
                  join_errors (errors c ++ ["Transform failed: " ++ msg]))
     else Returned (ctx p1)) /\
  (confidence c = lit_1_0 ->
   confidence (ctx p1) = lit_0_3 /\
   fst (execute percent p1) = Returned (ctx p1)) /\
  (confidence c = lit_0_3 ->
   fst (execute percent p1) =
     Failed ("Pipeline failed: " ++
             join_errors (errors c ++ ["Transform failed: " ++ msg]))) /\
  (forall func2 msg2,
     c = ctx p -> confidence (ctx p) = lit_1_0 ->
     func2 (ctx p1) = (ctx p1, Some msg2) ->
     fst (execute percent (transform func2 p1)) =
       Failed ("Pipeline failed: " ++
               join_errors (errors (ctx p) ++ ["Transform failed: " ++ msg;
                                               "Transform failed: " ++ msg2]))).
Proof.
  intros Hf. cbv zeta.
  assert (Hctx : ctx (transform func p) =
                 penalize ("Transform failed: " ++ msg) lit_0_3 c).
  { unfold transform. rewrite Hf. reflexivity. }
  assert (Hexec : forall q c' m,
            ctx q = penalize ("Transform failed: " ++ m) lit_0_3 c' ->
            fst (execute percent q) =
            (if lt (fmul (confidence c') lit_0_3) lit_0_3
             then Failed ("Pipeline failed: " ++
                          join_errors (errors c' ++ ["Transform failed: " ++ m]))
             else Returned (ctx q))).
  { intros q c' m Hq. rewrite execute_ctx, Hq.
    unfold has_errors. cbn [penalize confidence errors].
    destruct (errors c'); reflexivity. }
  split; [rewrite Hctx; reflexivity|].
  split; [rewrite Hctx; reflexivity|].
  split; [exact (Hexec _ _ _ Hctx)|].
  split; [|split].
  - intros Hc. rewrite (Hexec _ _ _ Hctx), Hctx. cbn [penalize confidence].
    rewrite Hc, full_times_0_3. split; reflexivity.
  - intros Hc. rewrite (Hexec _ _ _ Hctx), Hc.
    replace (lt (fmul lit_0_3 lit_0_3) lit_0_3) with true by (vm_compute; reflexivity).
    reflexivity.
  - intros func2 msg2 -> Hc Hf2.
    assert (Hctx2 : ctx (transform func2 (transform func p)) =
                    penalize ("Transform failed: " ++ msg2) lit_0_3
                             (ctx (transform func p))).
    { unfold transform at 1. rewrite Hf2. reflexivity. }
    rewrite (Hexec _ _ _ Hctx2), Hctx. cbn [penalize confidence errors].
    rewrite Hc, full_times_0_3.
    replace (lt (fmul lit_0_3 lit_0_3) lit_0_3) with true by (vm_compute; reflexivity).
    rewrite <- app_assoc. reflexivity.
Qed.

Lemma failed_transforms_witness :
  fst (execute (fun _ => "30%") (transform (failing "boom") (new "Create handoff"))) =
  Returned (ctx (transform (failing "boom") (new "Create handoff"))).
Proof.
  apply (failed_transforms (fun _ => "30%") (failing "boom") (new "Create handoff")
           (ctx (new "Create handoff")) "boom" eq_refl).
  reflexivity.
Defined.

(** X22. [batch_pipelines] never generates anything: it returns one
    pipeline per intent, in order, each with domain "auto", the single
    error "Template is required", confidence 0.7 and no output. *)
Theorem batch_pipelines_skip (intents : list string) :
  map (fun p => intent (ctx p)) (batch_pipelines intents) = intents /\
  Forall (fun p =>
            domain (ctx p) = Some "auto" /\
            errors (ctx p) = ["Template is required"] /\
            confidence (ctx p) = lit_0_7 /\
            output (ctx p) = None)
         (batch_pipelines intents).
Proof.
  unfold batch_pipelines. split.
  - rewrite map_map. cbn. apply map_id.
  - induction intents as [|i intents IH]; cbn [map]; constructor; [|exact IH].
    repeat split; vm_compute; reflexivity.
Qed.

(** *** Setting and reading dict keys *)

Lemma lookup_dict_set (k : string) (v : json) (d : dict) :
  lookup_key k (dict_set k v d) = Some v.
Proof.
  induction d as [|[k' v'] d IH]; cbn.
  - rewrite String.eqb_refl. reflexivity.
  - destruct (String.eqb k k') eqn:E; cbn.
    + rewrite String.eqb_refl. reflexivity.
    + rewrite E. exact IH.
Qed.

Lemma lookup_dict_set_other (k k' : string) (v : json) (d : dict) :
  k <> k' -> lookup_key k' (dict_set k v d) = lookup_key k' d.
Proof.
  intros Hne. induction d as [|[k1 v1] d IH]; cbn.
  - destruct (String.eqb k' k) eqn:E; [|reflexivity].
    apply String.eqb_eq in E. congruence.
  - destruct (String.eqb k k1) eqn:E; cbn.
    + apply String.eqb_eq in E. subst k1.
      destruct (String.eqb k' k) eqn:E'; [|reflexivity].
      apply String.eqb_eq in E'. congruence.
    + destruct (String.eqb k' k1); [reflexivity | exact IH].
Qed.

(** X23. The PRD pipeline keeps what it is given: after
    [with_user_stories] and [with_pain_points], in either order and on
    top of any context, both lists can be read back under their keys,
    every other key of a non-empty context is kept, and a new PRD
    pipeline has domain "prd". *)
Theorem prd_context_round_trip (stories points : list string) (p : ReflectionPipeline) :
  let read k q := lookup_key k (default [] (context (ctx q))) in
  read "user_stories" (with_pain_points points (with_user_stories stories p)) =
    Some (strings_json stories) /\
  read "pain_points" (with_pain_points points (with_user_stories stories p)) =
    Some (strings_json points) /\
  read "user_stories" (with_user_stories stories (with_pain_points points p)) =
    Some (strings_json stories) /\
  read "pain_points" (with_user_stories stories (with_pain_points points p)) =
    Some (strings_json points) /\
  (forall k, k <> "user_stories" -> k <> "pain_points" ->
     read k (with_pain_points points (with_user_stories stories p)) = read k p) /\
  (forall i, domain (ctx (new_prd i)) = Some "prd").
Proof.
  cbv zeta. unfold with_pain_points, with_user_stories, set_context_key.
  cbn [ctx set_ctx context default].
  assert (Hne : forall k v d, has_items (Some (dict_set k v d)) = true).
  { intros k v [|[k' v'] d]; cbn; [reflexivity|]. destruct (String.eqb k k'); reflexivity. }
  rewrite !Hne. cbn [default from_option]. unfold id.
  repeat split.
  - rewrite lookup_dict_set_other by discriminate. apply lookup_dict_set.
  - apply lookup_dict_set.
  - apply lookup_dict_set.
  - rewrite lookup_dict_set_other by discriminate. apply lookup_dict_set.
  - intros k H1 H2. rewrite !lookup_dict_set_other by congruence.
    destruct (context (ctx p)) as [[|]|]; reflexivity.
Qed.

Lemma prd_context_round_trip_witness :
  lookup_key "topic"
    (default [] (context (ctx (with_pain_points ["slow"]
       (with_user_stories ["as a user"]
          (with_context [("topic", JStr "search")] (new_prd "Write PRD"))))))) =
  Some (JStr "search").
Proof.
  rewrite (proj1 (proj2 (proj2 (proj2 (proj2
             (prd_context_round_trip ["as a user"] ["slow"]
                (with_context [("topic", JStr "search")] (new_prd "Write PRD")))))))
           "topic"); [reflexivity | discriminate | discriminate].
Defined.

(** X24. A [with] block whose body raises hands the exception on to
    the caller unchanged and leaves the pipeline recovered, so that
    [execute] on it returns; a body that does not raise leaves the
    context it produced. *)
Theorem managed_block (percent : spec_float -> string) (i : string)
    (body : ReflectionPipeline -> ReflectionPipeline * option string) :
  let started := log (RootInfo "Starting pipeline execution") (new i) in
  match snd (body started) with
  | Some e =>
      snd (managed i body) = Some e /\
      ctx (fst (managed i body)) = ctx (recover (fst (body started))) /\
      fst (execute percent (fst (managed i body))) = Returned (ctx (fst (managed i body)))
  | None =>
      snd (managed i body) = None /\
      ctx (fst (managed i body)) = ctx (fst (body started))
  end.
Proof.
  cbv zeta. unfold managed.
  destruct (body (log (RootInfo "Starting pipeline execution") (new i))) as [p1 [e|]];
    cbn [fst snd].
  - split; [reflexivity|]. split.
    + unfold recover. cbn [ctx log].
      destruct (has_errors (ctx p1)); [|reflexivity].
      cbn [ctx log set_ctx].
      destruct (negb (has_text (domain (ctx p1))) &&
                contains "handoff" (lower (intent (ctx p1))))%bool;
        cbn [ctx log set_ctx template];
        destruct (negb (has_items (template (ctx p1)))); reflexivity.
    + apply execute_recovered.
  - split; reflexivity.
Qed.

End PipelineFacts.
